(** * task_flow: tasks made of ordered steps, their results and their manager

    A shallow embedding of [task_flow/constants.py], [task_flow/step.py],
    [task_flow/task.py], [task_flow/task_manager.py] and
    [task_flow/setup_logger.py], followed by the
    properties of the task life cycle, of the persisted result record and of
    the manager's registry.

    Conventions of the embedding.
    - Python values ([pyval]) are the values of the JSON data model and,
      besides them, the tuple, which [json.dump] writes as a list, and the
      set, which it cannot write.  A dictionary has string keys and is a
      [gmap].
    - An exception is a value of [pyexn]: its class and the text [str(e)]
      gives.  The model covers the classes below [Exception], the ones the
      handlers of the code name.
    - A method is a function in the monad [M S]: it takes the state it may
      mutate and gives back a normal result or a raised exception together
      with the state it left behind.
    - The file system, the loggers, the clock and the UUID source form the
      [World]. *)

From Stdlib Require Import Ascii String.
From stdpp Require Import gmap strings list fin_maps sorting pretty.

Set Warnings "-register-all".

(** ** Python values *)

(** The values [json.load] produces, and two that it never produces: the
    tuple and the set.  A float is kept by its IEEE-754 binary64 bit
    pattern. *)
Inductive pyval : Type :=
  | PNone
  | PBool (b : bool)
  | PInt (z : Z)
  | PFloat (bits : Z)
  | PStr (s : string)
  | PList (l : list pyval)
  | PDict (m : gmap string pyval)
  | PTuple (l : list pyval)
  | PSet (l : list pyval).

(** [bool(v)], the truth value the [if] and [and] of Python test. *)
Definition truthy (v : pyval) : bool :=
  match v with
  | PNone => false
  | PBool b => b
  | PInt z => negb (z =? 0)%Z
  | PFloat bits => negb ((bits =? 0)%Z || (bits =? 2 ^ 63)%Z)
  | PStr s => negb (String.eqb s "")
  | PList l | PTuple l | PSet l => match l with [] => false | _ => true end
  | PDict m => negb (bool_decide (size m = 0))
  end.

(** What [json.load] reads back from the text [json.dump] wrote for a
    value: tuples have become lists.  The keys of a dictionary, which
    [json.dump] turns into strings, are strings already. *)
Fixpoint json_image (v : pyval) : pyval :=
  match v with
  | PList l | PTuple l => PList (json_image <$> l)
  | PDict m => PDict (json_image <$> m)
  | _ => v
  end.

(** Whether [json.dump] can write a value: a set, at any depth, makes it
    raise [TypeError]. *)
Fixpoint json_encodable (v : pyval) : bool :=
  match v with
  | PList l | PTuple l => forallb json_encodable l
  | PDict m => map_fold (λ _ x b, json_encodable x && b) true m
  | PSet _ => false
  | _ => true
  end.

(** The values of the JSON data model: no tuple and no set at any depth. *)
Fixpoint is_json (v : pyval) : bool :=
  match v with
  | PList l => forallb is_json l
  | PDict m => map_fold (λ _ x b, is_json x && b) true m
  | PTuple _ | PSet _ => false
  | _ => true
  end.

(** The number of constructors of a value. *)
Fixpoint pyval_size (v : pyval) : nat :=
  match v with
  | PList l | PTuple l | PSet l => S (foldr (λ x n, pyval_size x + n) 0 l)
  | PDict m => S (map_fold (λ _ x n, pyval_size x + n) 0 m)
  | _ => 1
  end.

(** ** Exceptions *)

Inductive exn_class : Type :=
  | ValueError
  | JSONDecodeError
  | KeyError
  | TypeError
  | AttributeError
  | FileNotFoundError
  | IsADirectoryError
  | NotADirectoryError
  | UserError (name : string).

Record pyexn : Type := Exn { exn_type : exn_class; exn_str : string }.

(** [isinstance(e, JSONDecodeError)]: the class has no subclass here. *)
Definition is_JSONDecodeError (e : pyexn) : bool :=
  match exn_type e with JSONDecodeError => true | _ => false end.

(** ** Results and the state-and-exception monad *)

Inductive Res (A : Type) : Type :=
  | Ok (a : A)
  | Raise (e : pyexn).
Arguments Ok {A} a.
Arguments Raise {A} e.

#[global] Instance Res_ret : MRet Res := λ A a, Ok a.
#[global] Instance Res_bind : MBind Res := λ A B f r,
  match r with Ok a => f a | Raise e => Raise e end.

(** A result that is an exception. *)
Definition raised {A} (r : Res A) : Prop := ∃ e, r = Raise e.

Definition M (S A : Type) : Type := S → Res A * S.

#[global] Instance M_ret {S} : MRet (M S) := λ A a s, (Ok a, s).
#[global] Instance M_bind {S} : MBind (M S) := λ A B f m s,
  match m s with
  | (Ok a, s') => f a s'
  | (Raise e, s') => (Raise e, s')
  end.

Definition raise {S A} (e : pyexn) : M S A := λ s, (Raise e, s).
Definition gets {S A} (f : S → A) : M S A := λ s, (Ok (f s), s).
Definition modify {S} (f : S → S) : M S unit := λ s, (Ok tt, f s).
Definition lift_res {S A} (r : Res A) : M S A := λ s, (r, s).

(** [try: x = body / except <filter> as e: handler e / else: orelse x]: an
    exception the filter rejects goes on to the caller; the [else] suite runs
    outside the protection of the handler. *)
Definition try_except_else {S A B}
    (body : M S B) (catches : pyexn → bool)
    (handler : pyexn → M S A) (orelse : B → M S A) : M S A := λ s,
  match body s with
  | (Ok x, s') => orelse x s'
  | (Raise e, s') => if catches e then handler e s' else (Raise e, s')
  end.

(** [for x in l: body x] *)
Fixpoint for_each {S A} (l : list A) (body : A → M S unit) : M S unit :=
  match l with
  | [] => mret tt
  | x :: l' => body x ;; for_each l' body
  end.

(** Run a method of a component on the larger state that holds it. *)
Definition zoom {S T A} (get : S → T) (set : T → S → S) (m : M T A) : M S A :=
  λ s, let '(r, t') := m (get s) in (r, set t' s).

(** ** Strings and paths *)

Definition slash : Ascii.ascii := "/"%char.
Definition dot : Ascii.ascii := "."%char.
Definition newline : Ascii.ascii := "010"%char.

Fixpoint has_char (c : Ascii.ascii) (s : string) : bool :=
  match s with
  | EmptyString => false
  | String c' s' => Ascii.eqb c c' || has_char c s'
  end.

Definition starts_with_slash (s : string) : bool :=
  match s with String c _ => Ascii.eqb c slash | EmptyString => false end.

Fixpoint ends_with_slash (s : string) : bool :=
  match s with
  | EmptyString => false
  | String c EmptyString => Ascii.eqb c slash
  | String _ s' => ends_with_slash s'
  end.

(** [os.path.join(a, b)] of [posixpath]. *)
Definition os_path_join (a b : string) : string :=
  if starts_with_slash b then b
  else if String.eqb a "" || ends_with_slash a then a +:+ b
  else a +:+ "/" +:+ b.

(** [os.path.basename(p)]: what follows the last slash. *)
Fixpoint os_path_basename (p : string) : string :=
  match p with
  | EmptyString => ""
  | String c p' =>
      if has_char slash p' then os_path_basename p'
      else if Ascii.eqb c slash then p' else p
  end.

(** [s.removesuffix(suffix)] *)
Definition removesuffix (suffix s : string) : string :=
  let n := String.length s in
  let k := String.length suffix in
  if (k <=? n)%nat && String.eqb (substring (n - k) k s) suffix
  then substring 0 (n - k) s else s.

(** [s.split(".")[0]]: what precedes the first dot. *)
Fixpoint split_dot_head (s : string) : string :=
  match s with
  | EmptyString => ""
  | String c s' => if Ascii.eqb c dot then "" else String c (split_dot_head s')
  end.

(** [file.readlines()] on a text already decoded: the lines, each with the
    newline that ends it. *)
Fixpoint readlines (s : string) : list string :=
  match s with
  | EmptyString => []
  | String c s' =>
      if Ascii.eqb c newline then String c "" :: readlines s'
      else match readlines s' with
           | [] => [String c ""]
           | line :: lines => String c line :: lines
           end
  end.

(** [{k: f(v) for k, v in m.items()}] where [f] may raise.  Python walks the
    items in insertion order, the model in the order of the keys; the two
    differ only in which failure is met first when several entries fail. *)
Fixpoint list_mapM {A B} (f : A → Res B) (l : list A) : Res (list B) :=
  match l with
  | [] => Ok []
  | x :: l' => y ← f x; ys ← list_mapM f l'; mret (y :: ys)
  end.

Definition dict_mapM {A B} (f : A → Res B) (m : gmap string A)
    : Res (gmap string B) :=
  l ← list_mapM (λ kv, b ← f kv.2; mret (kv.1, b)) (map_to_list m);
  mret (list_to_map l).

(** [sorted(l, key=k, reverse=True)] on entries that carry their keys: the
    largest key comes first, and entries none of whose keys is below the
    other keep the order they had, as the stable sort of Python leaves
    them. *)
Fixpoint insert_reverse {K A} (lt : K → K → bool) (x : K * A)
    (l : list (K * A)) : list (K * A) :=
  match l with
  | [] => [x]
  | y :: l' => if lt x.1 y.1 then y :: insert_reverse lt x l' else x :: l
  end.

Definition sorted_reverse {K A} (lt : K → K → bool) (l : list (K * A))
    : list (K * A) :=
  foldr (insert_reverse lt) [] l.

(** ** What the code takes from its libraries

    [repr], the text [json.dump] writes for a value (all of the document,
    or what is written when it meets a value it cannot encode),
    [datetime.fromisoformat], the
    subtraction of two datetimes followed by [total_seconds()], and the two
    sources of fresh values, [uuid.uuid4()] and [datetime.now().isoformat()],
    read at successive ticks of the world. *)
Class Externals : Type := {
  datetime : Type;
  py_repr : pyval → string;
  json_dumps : pyval → string;
  fromisoformat : pyval → Res datetime;
  total_seconds_between : datetime → datetime → Res pyval;
  uuid4 : nat → string;
  now_isoformat : nat → string;
}.

(** [a < b] on two datetimes, the one comparison [sorted] asks of its keys,
    and whether a datetime is aware of its time zone: comparing an aware
    datetime with a naive one raises [TypeError], and [dt_lt] is the answer
    for two datetimes of one kind. *)
Class DatetimeOrder `{Externals} : Type := {
  dt_lt : datetime → datetime → bool;
  dt_aware : datetime → bool;
}.

(** ** The world: files, directories, log records, ticks *)

(** A file holds text, or a JSON document, kept as the value [json.load]
    reads from it; [json.load] rejects any other text. *)
Inductive file_data : Type :=
  | FText (s : string)
  | FJson (v : pyval).

Inductive log_level : Type := LInfo | LError.

Record log_record : Type :=
  LogRecord { log_name : string; log_lvl : log_level; log_msg : string }.

(** Paths are compared as the strings the code builds.  A directory is
    present once [os.makedirs] has been asked for it; creating a directory
    and opening a file for writing succeed.  A logger adds its records to
    [log]; the handlers and the files the logging setup gives it are left
    out. *)
Record World : Type := mkWorld {
  files : gmap string file_data;
  dirs : gset string;
  log : list log_record;
  ticks : nat;
}.

Definition set_files (f : gmap string file_data → gmap string file_data)
    (w : World) : World :=
  mkWorld (f (files w)) (dirs w) (log w) (ticks w).
Definition set_dirs (f : gset string → gset string) (w : World) : World :=
  mkWorld (files w) (f (dirs w)) (log w) (ticks w).
Definition set_log (f : list log_record → list log_record) (w : World)
    : World :=
  mkWorld (files w) (dirs w) (f (log w)) (ticks w).
Definition set_ticks (f : nat → nat) (w : World) : World :=
  mkWorld (files w) (dirs w) (log w) (f (ticks w)).

Definition path_exists (w : World) (p : string) : bool :=
  bool_decide (is_Some (files w !! p)) || bool_decide (p ∈ dirs w).

Section world_ops.
Context `{Externals}.

Definition errno2 (p : string) : pyexn :=
  Exn FileNotFoundError
      ("[Errno 2] No such file or directory: " +:+ py_repr (PStr p)).

(** [logger.info(msg)] and [logger.error(msg)] of the logger [name]. *)
Definition logger_info (name msg : string) : M World unit :=
  modify (set_log (λ l, l ++ [LogRecord name LInfo msg])).
Definition logger_error (name msg : string) : M World unit :=
  modify (set_log (λ l, l ++ [LogRecord name LError msg])).

Definition fresh_uuid4 : M World string := λ w,
  (Ok (uuid4 (ticks w)), set_ticks S w).
Definition fresh_now : M World string := λ w,
  (Ok (now_isoformat (ticks w)), set_ticks S w).

(** [os.makedirs(d, exist_ok=True)] *)
Definition os_makedirs (d : string) : M World unit :=
  modify (set_dirs (λ ds, {[d]} ∪ ds)).

(** [os.path.exists(p)] *)
Definition os_path_exists (p : string) : M World bool :=
  gets (λ w, path_exists w p).

(** [open(p, "r")] followed by reading the whole file. *)
Definition open_read (p : string) : M World file_data := λ w,
  match files w !! p with
  | Some c => (Ok c, w)
  | None =>
      if bool_decide (p ∈ dirs w)
      then (Raise (Exn IsADirectoryError
              ("[Errno 21] Is a directory: " +:+ py_repr (PStr p))), w)
      else (Raise (errno2 p), w)
  end.

(** [open(p, "w")]: the file is there and empty from then on. *)
Definition open_write (p : string) : M World unit :=
  modify (set_files (<[p := FText ""]>)).

(** [json.dump(v, file)] on the file opened at [p].  The document is
    written piece by piece: when a value cannot be encoded, [TypeError] is
    raised with the file holding what was written until then, which is no
    JSON document. *)
Definition json_dump (v : pyval) (p : string) : M World unit := λ w,
  if json_encodable v
  then (Ok tt, set_files (<[p := FJson (json_image v)]>) w)
  else (Raise (Exn TypeError "Object of type set is not JSON serializable"),
        set_files (<[p := FText (json_dumps v)]>) w).

(** [json.load(file)] *)
Definition json_load (c : file_data) : Res pyval :=
  match c with
  | FJson v => Ok v
  | FText _ =>
      Raise (Exn JSONDecodeError "Expecting value: line 1 column 1 (char 0)")
  end.

(** The text of a file, as a reader in text mode sees it. *)
Definition file_text (c : file_data) : string :=
  match c with FText s => s | FJson v => json_dumps v end.

(** [os.rename(src, dst)], the relocation primitive: it moves the file at
    [src] and fails when there is none.  Directories are never a source
    here. *)
Definition os_rename (src dst : string) : M World unit := λ w,
  match files w !! src with
  | Some c => (Ok tt, set_files (λ fs, <[dst := c]> (delete src fs)) w)
  | None => (Raise (errno2 src), w)
  end.

(** The name [n] such that [os.path.join(d, n)] is [p], when [p] lies
    directly under [d]. *)
Definition entry_under (d p : string) : option string :=
  let pre := if String.eqb d "" || ends_with_slash d then d else d +:+ "/" in
  let k := String.length pre in
  let n := substring k (String.length p - k) p in
  if String.prefix pre p && negb (String.eqb n "") && negb (has_char slash n)
  then Some n else None.

(** [os.listdir(d)]: the entries come in an order the caller cannot choose,
    here the one of the store. *)
Definition os_listdir (d : string) : M World (list string) := λ w,
  if bool_decide (d ∈ dirs w)
  then (Ok (omap (entry_under d)
              (map fst (map_to_list (files w)) ++ elements (dirs w))), w)
  else (Raise (errno2 d), w).
End world_ops.

(** ** constants.py *)

Inductive STATUS : Type := PENDING | RUNNING | SUCCESS | ERROR.

#[global] Instance STATUS_eq_dec : EqDecision STATUS.
Proof. solve_decision. Defined.

(** [status.value] *)
Definition STATUS_value (s : STATUS) : string :=
  match s with
  | PENDING => "PENDING"
  | RUNNING => "RUNNING"
  | SUCCESS => "SUCCESS"
  | ERROR => "ERROR"
  end.

Definition STATUS_members : list STATUS := [PENDING; RUNNING; SUCCESS; ERROR].

(** The member whose value is [s], if there is one. *)
Definition STATUS_lookup (s : string) : option STATUS :=
  List.find (λ m, String.eqb (STATUS_value m) s) STATUS_members.

(** [STATUS(v)]: the member with that value, or [ValueError]. *)
Definition STATUS_call `{Externals} (v : pyval) : Res STATUS :=
  match v with
  | PStr s =>
      match STATUS_lookup s with
      | Some m => Ok m
      | None => Raise (Exn ValueError (py_repr v +:+ " is not a valid STATUS"))
      end
  | _ => Raise (Exn ValueError (py_repr v +:+ " is not a valid STATUS"))
  end.

(** ** step.py *)

Module StepResult.

(** The [status] attribute: a member of the enumeration, or whatever other
    object the caller passed, which [__post_init__] leaves alone unless it
    is a string. *)
Inductive status_field : Type :=
  | Status (s : STATUS)
  | RawStatus (v : pyval).

Record t : Type := mk {
  message : pyval;
  status : status_field;
  data : pyval;
}.

Definition set_status (st : status_field) (sr : t) : t :=
  mk (message sr) st (data sr).
Definition set_data (v : pyval) (sr : t) : t :=
  mk (message sr) (status sr) v.

(** [sr.status == member], with [STATUS] a subclass of [str]. *)
Definition status_is (member : STATUS) (sr : t) : bool :=
  match status sr with
  | Status s => bool_decide (s = member)
  | RawStatus (PStr x) => String.eqb x (STATUS_value member)
  | RawStatus _ => false
  end.

(** [StepResult()] *)
Definition default : t := mk (PStr "") (Status PENDING) (PDict ∅).

Section methods.
Context `{Externals}.

(** [__post_init__]: a member is a string too and [STATUS] maps it to
    itself. *)
Definition post_init (sr : t) : Res t :=
  match status sr with
  | RawStatus (PStr s) =>
      m ← STATUS_call (PStr s); mret (set_status (Status m) sr)
  | _ => Ok sr
  end.

(** [StepResult(message, status, data)] *)
Definition init (message : pyval) (status : status_field) (data : pyval)
    : Res t :=
  post_init (mk message status data).

(** [StepResult] called with the keyword arguments of the mapping [kw]. *)
Definition from_kwargs (kw : pyval) : Res t :=
  match kw with
  | PDict m =>
      if bool_decide (dom m ⊆ ({["message"; "status"; "data"]} : gset string))
      then init (from_option id (PStr "") (m !! "message"))
                (from_option RawStatus (Status PENDING) (m !! "status"))
                (from_option id (PDict ∅) (m !! "data"))
      else Raise (Exn TypeError
             "StepResult.__init__() got an unexpected keyword argument")
  | _ => Raise (Exn TypeError
           "StepResult() argument after ** must be a mapping")
  end.

(** [to_dict] *)
Definition to_dict (sr : t) : Res pyval :=
  match status sr with
  | Status s =>
      Ok (PDict (list_to_map
            [("message", message sr);
             ("status", PStr (STATUS_value s));
             ("data", data sr)]))
  | RawStatus _ =>
      Raise (Exn AttributeError "object has no attribute 'value'")
  end.
End methods.
End StepResult.

(** ** task.py: TaskResult *)

(** [v[k]], [v.items()], [v.get(k, d)] and [v[k] = x] on a value that may or
    may not be a dictionary. *)
Section item_access.
Context `{Externals}.

Definition getitem (v : pyval) (k : string) : Res pyval :=
  match v with
  | PDict m =>
      match m !! k with
      | Some x => Ok x
      | None => Raise (Exn KeyError (py_repr (PStr k)))
      end
  | PList _ | PTuple _ | PStr _ =>
      Raise (Exn TypeError "indices must be integers")
  | _ => Raise (Exn TypeError "object is not subscriptable")
  end.

Definition dict_items (v : pyval) : Res (gmap string pyval) :=
  match v with
  | PDict m => Ok m
  | _ => Raise (Exn AttributeError "object has no attribute 'items'")
  end.

Definition dict_get (v : pyval) (k : string) (d : pyval) : Res pyval :=
  match v with
  | PDict m => Ok (from_option id d (m !! k))
  | _ => Raise (Exn AttributeError "object has no attribute 'get'")
  end.

Definition setitem (v : pyval) (k : string) (x : pyval) : Res pyval :=
  match v with
  | PDict m => Ok (PDict (<[k := x]> m))
  | PList _ => Raise (Exn TypeError "list indices must be integers")
  | _ => Raise (Exn TypeError "object does not support item assignment")
  end.
End item_access.

Module TaskResult.

Record t : Type := mk {
  task_type : pyval;
  status : STATUS;
  exit_message : pyval;
  data : gmap string StepResult.t;
  created_at : pyval;
  start_at : pyval;
  end_at : pyval;
  artifacts : pyval;
}.

Definition set_status (s : STATUS) (r : t) : t :=
  mk (task_type r) s (exit_message r) (data r)
     (created_at r) (start_at r) (end_at r) (artifacts r).
Definition set_exit_message (v : pyval) (r : t) : t :=
  mk (task_type r) (status r) v (data r)
     (created_at r) (start_at r) (end_at r) (artifacts r).
Definition set_data (d : gmap string StepResult.t) (r : t) : t :=
  mk (task_type r) (status r) (exit_message r) d
     (created_at r) (start_at r) (end_at r) (artifacts r).
Definition set_start_at (v : pyval) (r : t) : t :=
  mk (task_type r) (status r) (exit_message r) (data r)
     (created_at r) v (end_at r) (artifacts r).
Definition set_end_at (v : pyval) (r : t) : t :=
  mk (task_type r) (status r) (exit_message r) (data r)
     (created_at r) (start_at r) v (artifacts r).
Definition set_artifacts (v : pyval) (r : t) : t :=
  mk (task_type r) (status r) (exit_message r) (data r)
     (created_at r) (start_at r) (end_at r) v.

(** The [exit_code] property. *)
Definition exit_code (r : t) : Z :=
  if bool_decide (size (data r) = 0) then 1
  else if forallb (λ kv, StepResult.status_is ERROR kv.2)
                  (map_to_list (data r))
       then 1 else 0.

Section methods.
Context `{Externals}.

(** The [duration] property. *)
Definition duration (r : t) : Res pyval :=
  if truthy (start_at r) && truthy (end_at r)
  then e ← fromisoformat (end_at r);
       s ← fromisoformat (start_at r);
       total_seconds_between e s
  else Ok PNone.

(** [to_dict] *)
Definition to_dict (r : t) : Res pyval :=
  steps ← dict_mapM StepResult.to_dict (data r);
  dur ← duration r;
  mret (PDict (list_to_map
    [("task_type", task_type r);
     ("status", PStr (STATUS_value (status r)));
     ("exit_code", PInt (exit_code r));
     ("exit_message", exit_message r);
     ("data", PDict steps);
     ("created_at", created_at r);
     ("start_at", start_at r);
     ("end_at", end_at r);
     ("duration", dur);
     ("artifacts", artifacts r)])).
End methods.
End TaskResult.

(** ** task.py: Task *)

(** What a step body reads of its task: the identity and the logger. *)
Record Self : Type := mkSelf { self_task_id : string; self_logger : string }.

(** What a step body may write of its task: the artifacts, and the result of
    its own step, the record whose [message] is left to step authors.  The
    fields of the task itself, the step list and the results of the other
    steps belong to the engine. *)
Record Reach : Type := mkReach {
  reach_artifacts : pyval;
  reach_result : StepResult.t;
}.

(** A body works on what it may write and on the world, and returns a
    payload or raises. *)
Definition StepBody : Type := Self → M (Reach * World) pyval.

(** A name bound in the body of a task class: a method, tagged by [@step] or
    not, an attribute that cannot be called, or a [MagicMock]. *)
Inductive member : Type :=
  | Method (tagged : bool) (body : StepBody)
  | Attribute (v : pyval)
  | Mock.

(** A class that derives from [Task]: its name and the bindings of its body
    in the order they are written. *)
Record TaskClass : Type := mkClass {
  cls_name : string;
  cls_body : list (string * member);
}.

(** [Task] itself. *)
Definition Task_class : TaskClass := mkClass "Task" [].

(** What [getattr(self, name)] finds: an attribute set on the instance, a
    binding of the class body (the last one for that name), or a method that
    [Task] defines. *)
Inductive attr : Type :=
  | OfInstance (type_name : string)
  | OfClass (m : member)
  | OfTask.

(** The attributes [__init__] has set when it scans [dir(self)]. *)
Definition instance_attrs : list string :=
  ["task_id"; "logger"; "is_executable"].

(** The attributes [__init__] sets after the scan. *)
Definition late_attrs : list string := ["steps"; "result"].

(** The type of the value an attribute of the instance holds. *)
Definition instance_type (name : string) : string :=
  if String.eqb name "task_id" then "str"
  else if String.eqb name "logger" then "Logger"
  else if String.eqb name "is_executable" then "bool"
  else if String.eqb name "steps" then "list"
  else "TaskResult".

Definition Task_attrs : list string :=
  ["__init__"; "load_from_file"; "execute"; "_execute_step";
   "add_artifact"; "save_result"].

(** [getattr(self, name)] during the scan of [__init__]. *)
Definition getattr_ (c : TaskClass) (name : string) : option attr :=
  if bool_decide (name ∈ instance_attrs)
  then Some (OfInstance (instance_type name))
  else match (list_to_map (reverse (cls_body c)) : gmap string member) !! name with
       | Some m => Some (OfClass m)
       | None => if bool_decide (name ∈ Task_attrs) then Some OfTask else None
       end.

(** [callable(a) and hasattr(a, "is_step") and not isinstance(a, MagicMock)] *)
Definition is_step (a : option attr) : bool :=
  match a with
  | Some (OfClass (Method true _)) => true
  | _ => false
  end.

Definition str_le (a b : string) : Prop := String.leb a b = true.

#[global] Instance str_le_dec a b : Decision (str_le a b).
Proof. unfold str_le. apply _. Defined.

(** [dir(self)]: the names, each once, in the order of [sorted].  The names
    [object] brings are left out: none of them is tagged. *)
Definition dir_ (c : TaskClass) : list string :=
  merge_sort str_le
    (remove_dups (instance_attrs ++ (cls_body c).*1 ++ Task_attrs)).

(** The comprehension that fills [self.steps]. *)
Definition discover (c : TaskClass) : list string :=
  filter (λ name, is_step (getattr_ c name) = true) (dir_ c).

(** The world inside the view of a step body or of [add_artifact]. *)
Definition view_world {V A} (m : M World A) : M (V * World) A :=
  zoom snd (λ w s, (s.1, w)) m.

(** The artifacts inside the view of a step body. *)
Definition reach_artifacts_do {A} (m : M (pyval * World) A)
    : M (Reach * World) A :=
  zoom (λ s, (reach_artifacts s.1, s.2))
       (λ v s, (mkReach v.1 (reach_result s.1), v.2)) m.


(** [self.result.artifacts[k] = x] *)
Definition view_setitem `{Externals} (k : string) (x : pyval)
    : M (pyval * World) unit :=
  λ s, match setitem s.1 k x with
       | Ok a => (Ok tt, (a, s.2))
       | Raise e => (Raise e, s)
       end.

Module Task.

Record t : Type := mk {
  task_id : string;
  logger : string;
  is_executable : bool;
  steps : list string;
  result : TaskResult.t;
  class_ : TaskClass;
}.

Definition set_task_id (i : string) (k : t) : t :=
  mk i (logger k) (is_executable k) (steps k) (result k) (class_ k).
Definition set_is_executable (b : bool) (k : t) : t :=
  mk (task_id k) (logger k) b (steps k) (result k) (class_ k).
Definition set_result (r : TaskResult.t) (k : t) : t :=
  mk (task_id k) (logger k) (is_executable k) (steps k) r (class_ k).
Definition upd_result (f : TaskResult.t → TaskResult.t) (k : t) : t :=
  set_result (f (result k)) k.

(** The state of a method: the task and the world. *)
Definition St : Type := t * World.

Definition on_world {A} (m : M World A) : M St A :=
  zoom snd (λ w s, (s.1, w)) m.
Definition on_result (f : TaskResult.t → TaskResult.t) : M St unit :=
  modify (λ s, (upd_result f s.1, s.2)).

(** The part of the state [add_artifact] works on. *)
Definition on_view {A} (m : M (pyval * World) A) : M St A :=
  zoom (λ s, (TaskResult.artifacts (result s.1), s.2))
       (λ v s, (upd_result (TaskResult.set_artifacts v.1) s.1, v.2)) m.

(** The part of the state the body of the step [name] works on.  The engine
    calls a step once it has marked its result, so the result is there; the
    default stands for it in any other state. *)
Definition on_reach (name : string) {A} (m : M (Reach * World) A) : M St A :=
  zoom (λ s, (mkReach (TaskResult.artifacts (result s.1))
                (from_option id StepResult.default
                   (TaskResult.data (result s.1) !! name)), s.2))
       (λ v s, (upd_result
                  (λ r, TaskResult.set_data
                          (alter (λ _, reach_result v.1) name
                             (TaskResult.data r))
                          (TaskResult.set_artifacts (reach_artifacts v.1) r))
                  s.1, v.2)) m.

(** What [__init__] builds, given the identity and the creation time it drew. *)
Definition new (c : TaskClass) (ident created : string) : t :=
  let names := discover c in
  mk ident ident true names
     (TaskResult.mk (PStr (cls_name c)) PENDING PNone
        (list_to_map ((λ name, (name, StepResult.default)) <$> names))
        (PStr created) PNone PNone (PDict ∅))
     c.

Section methods.
Context `{Externals}.

(** [__init__]: the logger of a task is the one named by its identity. *)
Definition init (c : TaskClass) : M World t :=
  u ← fresh_uuid4;
  now ← fresh_now;
  mret (new c ("task-" +:+ u) now).

(** [self.result.data[name].status = st] *)
Definition set_step_status (name : string) (st : STATUS) : M St unit :=
  λ s, match TaskResult.data (result s.1) !! name with
       | Some sr =>
           on_result (λ r, TaskResult.set_data
             (<[name := StepResult.set_status (StepResult.Status st) sr]>
                (TaskResult.data r)) r) s
       | None => (Raise (Exn KeyError (py_repr (PStr name))), s)
       end.

(** [self.result.data[name].data = v] *)
Definition set_step_data (name : string) (v : pyval) : M St unit :=
  λ s, match TaskResult.data (result s.1) !! name with
       | Some sr =>
           on_result (λ r, TaskResult.set_data
             (<[name := StepResult.set_data v sr]> (TaskResult.data r)) r) s
       | None => (Raise (Exn KeyError (py_repr (PStr name))), s)
       end.

Definition info (msg : string) : M St unit :=
  λ s, on_world (logger_info (logger s.1) msg) s.
Definition error (msg : string) : M St unit :=
  λ s, on_world (logger_error (logger s.1) msg) s.

(** [getattr(self, name)] once [__init__] is over: [steps] and [result] are
    attributes of the instance too, and hide a method of that name. *)
Definition getattr (name : string) : M St attr :=
  λ s, if bool_decide (name ∈ late_attrs)
       then (Ok (OfInstance (instance_type name)), s)
       else match getattr_ (class_ s.1) name with
            | Some a => (Ok a, s)
            | None => (Raise (Exn AttributeError
                         ("object has no attribute " +:+ py_repr (PStr name))),
                       s)
            end.

(** [step_func()], called for the step [name]: only tagged methods and
    attributes of the instance are ever found under the name of a step. *)
Definition call (name : string) (f : attr) : M St pyval :=
  match f with
  | OfClass (Method _ body) =>
      λ s, on_reach name (body (mkSelf (task_id s.1) (logger s.1))) s
  | OfInstance type_name =>
      raise (Exn TypeError ("'" +:+ type_name +:+ "' object is not callable"))
  | _ => raise (Exn TypeError "object is not callable")
  end.

(** [_execute_step] *)
Definition _execute_step (step_name : string) (step_func : attr)
    : M St unit :=
  info ("Starting step " +:+ step_name);;
  set_step_status step_name RUNNING;;
  try_except_else
    (result ← call step_name step_func;
     set_step_data step_name result;;
     set_step_status step_name SUCCESS;;
     info ("Step " +:+ step_name +:+ " finished successfully"))
    (λ _, true)
    (λ e,
       set_step_status step_name ERROR;;
       error ("Step " +:+ step_name +:+ " failed: " +:+ exn_str e);;
       raise e)
    (λ _, mret tt).

(** [save_result] *)
Definition save_result (path : string) : M St unit :=
  on_world (os_makedirs path);;
  k ← gets fst;
  let file := os_path_join path (task_id k +:+ ".json") in
  on_world (open_write file);;
  d ← lift_res (TaskResult.to_dict (result k));
  on_world (json_dump d file).

(** [execute], in the parts the source separates: the entry, the
    protected loop over the steps, and the exit. *)
Definition begin : M St unit :=
  info "Task started";;
  on_result (TaskResult.set_status RUNNING);;
  now ← on_world fresh_now;
  on_result (TaskResult.set_start_at (PStr now)).

(** One turn of the loop. *)
Definition turn (step_name : string) : M St unit :=
  step_func ← getattr step_name;
  _execute_step step_name step_func.

Definition run_steps (names : list string) : M St unit :=
  for_each names turn.

Definition run : M St unit :=
  names ← gets (λ s, steps s.1);
  match names with
  | [] => raise (Exn ValueError "No steps to execute")
  | _ => run_steps names
  end.

Definition finish : M St pyval :=
  now ← on_world fresh_now;
  on_result (TaskResult.set_end_at (PStr now));;
  save_result "results/";;
  k ← gets fst;
  lift_res (TaskResult.to_dict (result k)).

Definition execute : M St pyval :=
  k ← gets fst;
  if negb (is_executable k)
  then raise (Exn ValueError "Task is not executable")
  else
    begin;;
    try_except_else run (λ _, true)
      (λ e,
         on_result (TaskResult.set_exit_message (PStr (exn_str e)));;
         on_result (TaskResult.set_status ERROR);;
         error ("Task failed: " +:+ exn_str e))
      (λ _, on_result (TaskResult.set_status SUCCESS);;
            info "Task finished successfully");;
    finish.

(** [add_artifact], as a step body calls it on its task. *)
Definition add_artifact_of (self : Self) (path artifact_path : string)
    : M (pyval * World) unit :=
  view_world (logger_info (self_logger self)
                ("Adding artifact " +:+ os_path_basename path));;
  view_world (os_makedirs artifact_path);;
  let new_path :=
    os_path_join artifact_path
      (self_task_id self +:+ "_" +:+ os_path_basename path) in
  view_world (os_rename path new_path);;
  view_setitem (os_path_basename path) (PStr new_path).

Definition add_artifact (path artifact_path : string) : M St unit :=
  λ s, on_view
         (add_artifact_of (mkSelf (task_id s.1) (logger s.1))
            path artifact_path) s.

(** The [TaskResult(...)] that [load_from_file] builds from the decoded
    record, its arguments read in the order they are written. *)
Definition read_result (data : pyval) : Res TaskResult.t :=
  task_type ← getitem data "task_type";
  st ← getitem data "status" ≫= STATUS_call;
  exit_message ← getitem data "exit_message";
  created_at ← getitem data "created_at";
  start_at ← getitem data "start_at";
  end_at ← getitem data "end_at";
  items ← getitem data "data" ≫= dict_items;
  step_results ← dict_mapM StepResult.from_kwargs items;
  artifacts ← dict_get data "artifacts" (PDict ∅);
  mret (TaskResult.mk task_type st exit_message step_results
          created_at start_at end_at artifacts).

(** [load_from_file] *)
Definition load_from_file (file_path : string) : M World t :=
  c ← open_read file_path;
  data ← lift_res (json_load c);
  task ← init Task_class;
  let task :=
    set_task_id (removesuffix ".json" (os_path_basename file_path)) task in
  r ← lift_res (read_result data);
  mret (set_is_executable false (set_result r task)).
End methods.
End Task.

(** ** task_manager.py

    The registry, the operations that read the disk and the ones that hand a
    task to the worker pool.  The workers run [Task.execute] on other
    threads; what they do there has no counterpart here. *)

Module TaskManager.

Record t : Type := mk {
  tasks : gmap string Task.t;
  path_artifact : string;
  path_result : string;
  logger : string;
}.

Definition set_tasks (f : gmap string Task.t → gmap string Task.t) (m : t)
    : t :=
  mk (f (tasks m)) (path_artifact m) (path_result m) (logger m).

Definition St : Type := t * World.

Definition on_world {A} (m : M World A) : M St A :=
  zoom snd (λ w s, (s.1, w)) m.

(** [__init__]: the logger is the one [get_logger()] names by default. *)
Definition init (path_artifact path_result : string) : t :=
  mk ∅ path_artifact path_result "app".

Section methods.
Context `{Externals}.

Definition info (msg : string) : M St unit :=
  λ s, on_world (logger_info (logger s.1) msg) s.
Definition error (msg : string) : M St unit :=
  λ s, on_world (logger_error (logger s.1) msg) s.

(** The body of the loop of [load_from_disk]. *)
Definition load_entry (file : string) : M St unit :=
  let task_id := split_dot_head file in
  info ("Loading task " +:+ task_id +:+ " from disk");;
  dir ← gets (λ s, path_result s.1);
  try_except_else
    (on_world (Task.load_from_file (os_path_join dir file)))
    is_JSONDecodeError
    (λ _, error ("Error loading task " +:+ task_id +:+ " from disk"))
    (λ task, modify (λ s, (set_tasks (<[task_id := task]>) s.1, s.2))).

Definition load_entries (entries : list string) : M St unit :=
  for_each entries load_entry.

(** [load_from_disk] *)
Definition load_from_disk : M St unit :=
  dir ← gets (λ s, path_result s.1);
  entries ← on_world (os_listdir dir);
  load_entries entries.

(** [get_task_status] *)
Definition get_task_status (task_id : string)
    (logs_folder_path : option string) : M St pyval :=
  reg ← gets (λ s, tasks s.1);
  match reg !! task_id with
  | None => raise (Exn ValueError ("Task " +:+ task_id +:+ " not found"))
  | Some task =>
      let log_file d := os_path_join d (task_id +:+ ".log") in
      logs_task ←
        match logs_folder_path with
        | Some d =>
            if negb (String.eqb d "")
            then found ← on_world (os_path_exists (log_file d));
                 if (found : bool)
                 then c ← on_world (open_read (log_file d));
                      mret (readlines (file_text c))
                 else mret []
            else mret []
        | None => mret []
        end;
      d ← lift_res (TaskResult.to_dict (Task.result task) ≫= dict_items);
      mret (PDict (<["logs" := PList (PStr <$> logs_task)]> d))
  end.

(** The executor, as the thread of the manager sees it: the identities of
    the tasks whose [execute] it has been handed, oldest first, and whether
    it has been shut down.  The workers that run the tasks, and the record
    they log when one is done, belong to other threads. *)
Record Pool : Type := mkPool {
  submitted : list string;
  is_shutdown : bool;
}.

(** [ThreadPoolExecutor(max_threads)] *)
Definition new_pool : Pool := mkPool [] false.

(** The state of the methods that submit: the executor and the manager. *)
Definition PSt : Type := Pool * St.

Definition on_manager {A} (m : M St A) : M PSt A :=
  zoom snd (λ s p, (p.1, s)) m.

(** [self.executor.submit(task.execute)] for the task of that identity: an
    executor that has been shut down takes no more work. *)
Definition submit (task_id : string) : M PSt unit := λ p,
  if is_shutdown p.1
  then (Raise (Exn (UserError "RuntimeError")
                 "cannot schedule new futures after shutdown"), p)
  else (Ok tt, (mkPool (submitted p.1 ++ [task_id]) false, p.2)).

(** [self.executor.shutdown(wait=True)], on the thread of the manager. *)
Definition executor_shutdown : M PSt unit :=
  modify (λ p, (mkPool (submitted p.1) true, p.2)).

(** [_start_task] *)
Definition _start_task (task_id : string) : M PSt unit :=
  reg ← gets (λ p, tasks p.2.1);
  match reg !! task_id with
  | None => raise (Exn ValueError ("Task " +:+ task_id +:+ " not found"))
  | Some _ =>
      on_manager (info ("Starting task " +:+ task_id));;
      submit task_id
  end.

(** [add_task] *)
Definition add_task (task_class : TaskClass) : M PSt string :=
  task ← on_manager (on_world (Task.init task_class));
  on_manager
    (info ("Adding task " +:+ cls_name task_class +:+ " with id "
           +:+ Task.task_id task));;
  on_manager
    (modify (λ s, (set_tasks (<[Task.task_id task := task]>) s.1, s.2)));;
  _start_task (Task.task_id task);;
  mret (Task.task_id task).

(** [shutdown] *)
Definition shutdown : M PSt unit :=
  on_manager
    (info "Shutting down task manager, waiting for tasks to finish");;
  executor_shutdown;;
  on_manager (info "All tasks finished, shutting down").

(** The entry [list_tasks] makes for a task. *)
Definition summary (task : Task.t) : pyval :=
  PDict (list_to_map
    [("task_id", PStr (Task.task_id task));
     ("task_type", TaskResult.task_type (Task.result task));
     ("status", PStr (STATUS_value (TaskResult.status (Task.result task))));
     ("created_at", TaskResult.created_at (Task.result task));
     ("start_at", TaskResult.start_at (Task.result task));
     ("end_at", TaskResult.end_at (Task.result task))]).

(** [task_type is None or task.result.task_type == task_type], for a
    [task_type] that is a string. *)
Definition selected (task_type : option string) (task : Task.t) : bool :=
  match task_type with
  | None => true
  | Some s =>
      match TaskResult.task_type (Task.result task) with
      | PStr s' => String.eqb s' s
      | _ => false
      end
  end.

(** The key of [list_tasks]: [datetime.fromisoformat(x["created_at"])]. *)
Definition created_key (x : pyval) : Res datetime :=
  getitem x "created_at" ≫= fromisoformat.

(** Whether [sorted] can compare the keys: they are all aware or all
    naive.  Whatever the order they come in, sorting keys of both kinds
    meets a comparison of one kind with the other. *)
Definition comparable_keys `{!DatetimeOrder} (keys : list datetime) : bool :=
  forallb dt_aware keys || forallb (λ k, negb (dt_aware k)) keys.

(** [list_tasks].  The keys are all computed before any is compared.  The
    registry is walked in the order of its keys, where Python walks it in
    the order of insertion; the two differ in the order of entries created
    at the same time and in which unreadable time is met first. *)
Definition list_tasks `{!DatetimeOrder} (task_type : option string)
    : M St (list pyval) :=
  reg ← gets (λ s, tasks s.1);
  let entries :=
    summary <$> filter (λ task, selected task_type task = true)
                       (map_to_list reg).*2 in
  keyed ← lift_res (list_mapM (λ x, k ← created_key x; mret (k, x)) entries);
  if comparable_keys keyed.*1
  then mret (sorted_reverse dt_lt keyed).*2
  else raise (Exn TypeError
                "can't compare offset-naive and offset-aware datetimes").
End methods.
End TaskManager.

(** ** setup_logger.py

    The loggers of [logging], by name, with what [get_logger] reads and sets
    of them: the level and the handlers.  The records a handler formats and
    writes are left out. *)

Module Logging.

Inductive formatter : Type := LOG_FORMATTER_FILE | LOG_FORMATTER_CONSOLE.

(** [logging.NOTSET], [logging.DEBUG] and [logging.INFO] *)
Definition NOTSET : Z := 0.
Definition DEBUG : Z := 10.
Definition INFO : Z := 20.

(** A handler with the formatter and the level it was given.  A file
    handler is known by the path it was made with. *)
Inductive handler : Type :=
  | StreamHandler (fmt : formatter) (lvl : Z)
  | FileHandler (filename : string) (fmt : formatter) (lvl : Z).

Record logger : Type := mkLogger { level : Z; handlers : list handler }.

Definition set_level (lvl : Z) (lg : logger) : logger :=
  mkLogger lvl (handlers lg).
Definition add_handler (h : handler) (lg : logger) : logger :=
  mkLogger (level lg) (handlers lg ++ [h]).

(** The loggers made so far, and the world. *)
Definition St : Type := gmap string logger * World.

Definition on_world {A} (m : M World A) : M St A :=
  zoom snd (λ w s, (s.1, w)) m.

(** [logging.getLogger(name)]: the logger of that name, made on first use
    with no level and no handler. *)
Definition getLogger (name : string) : M St logger := λ s,
  match s.1 !! name with
  | Some lg => (Ok lg, s)
  | None =>
      (Ok (mkLogger NOTSET []), (<[name := mkLogger NOTSET []]> s.1, s.2))
  end.

(** [lg.setLevel(..)] and [lg.addHandler(..)] on the logger of that name. *)
Definition update (name : string) (f : logger → logger) : M St unit :=
  modify (λ s, (alter f name s.1, s.2)).

Section functions.
Context `{Externals}.

(** [open(p, "a")], as [FileHandler(p)] does it: the file is there
    afterwards, with what it held. *)
Definition open_append (p : string) : M World unit := λ w,
  if bool_decide (p ∈ dirs w)
  then (Raise (Exn IsADirectoryError
          ("[Errno 21] Is a directory: " +:+ py_repr (PStr p))), w)
  else (Ok tt,
        set_files (λ fs, match fs !! p with
                         | Some _ => fs
                         | None => <[p := FText ""]> fs
                         end) w).

(** [get_logger]; it returns the logger, here its name. *)
Definition get_logger (name : string) (lvl : Z) (path_to_save : string)
    : M St string :=
  on_world (os_makedirs path_to_save);;
  app_logger ← getLogger name;
  match handlers app_logger with
  | [] =>
      update name (set_level DEBUG);;
      update name (add_handler (StreamHandler LOG_FORMATTER_CONSOLE lvl));;
      let file := os_path_join path_to_save (name +:+ ".log") in
      on_world (open_append file);;
      update name (add_handler (FileHandler file LOG_FORMATTER_FILE DEBUG));;
      mret name
  | _ => mret name
  end.

(** [get_task_logger] *)
Definition get_task_logger (task_id path_to_save : string) : M St string :=
  get_logger task_id INFO path_to_save.
End functions.
End Logging.

(** The step results of the task in a state. *)
Definition data_of (s : Task.St) : gmap string StepResult.t :=
  TaskResult.data (Task.result s.1).

(** ** The words of the specification, where a property compares them with
    the code *)

(** The step-tagged methods of a class in the order the class body declares
    them: the order the documentation of [Task] promises for the run. *)
Definition tagged_method (m : member) : bool :=
  match m with Method true _ => true | _ => false end.

Definition declared_steps (c : TaskClass) : list string :=
  (filter (λ b, tagged_method b.2 = true) (cls_body c)).*1.

(** The steps a run has started, read off the records the engine writes
    before it calls a step. *)
Definition started_steps (w : World) : list string :=
  omap (λ r, let pre := "Starting step " in
             if String.prefix pre (log_msg r)
             then Some (substring (String.length pre)
                          (String.length (log_msg r) - String.length pre)
                          (log_msg r))
             else None)
       (log w).

(** The text a sequence of lines makes up. *)
Definition unlines (lines : list string) : string :=
  foldr String.append "" lines.



Section step_calls.
Context `{Externals}.


End step_calls.


(** ** Concrete inputs *)

(** Library functions to run the model on: [repr] of a string without
    escapes, a clock and a UUID source that count. *)
Definition sample_externals : Externals := {|
  datetime := string;
  py_repr := λ v, match v with PStr s => "'" +:+ s +:+ "'" | _ => "<value>" end;
  json_dumps := λ v, if json_encodable v then "{}" else "{";
  fromisoformat := λ v,
    match v with
    | PStr s => Ok s
    | _ => Raise (Exn TypeError "fromisoformat: argument must be str")
    end;
  total_seconds_between := λ _ _, Ok (PFloat 0);
  uuid4 := λ n, "00000000-0000-4000-8000-00000000000" +:+ pretty n;
  now_isoformat := λ n, "2021-01-01T00:00:0" +:+ pretty n;
|}.

Definition empty_world : World := mkWorld ∅ ∅ [] 0.

(** A class whose two steps are declared in an order that is not the
    alphabetical one. *)
Definition Pipeline : TaskClass :=
  mkClass "Pipeline"
    [("fetch", Method true (λ _, mret (PStr "fetched")));
     ("build", Method true (λ _, mret (PStr "built")))].

(** A class of three steps whose second one raises. *)
Definition Checked : TaskClass :=
  mkClass "Checked"
    [("a_load", Method true (λ _, mret (PDict {["rows" := PInt 3]})));
     ("b_check", Method true (λ _, raise (Exn (UserError "CheckError") "bad row")));
     ("c_store", Method true (λ _, mret (PStr "stored")))].

(** A persisted result record and the record of one of its steps. *)
Definition record_of (status : string) (steps : gmap string pyval) : pyval :=
  PDict (list_to_map
    [("task_type", PStr "Checked");
     ("status", PStr status);
     ("exit_code", PInt 0);
     ("exit_message", PNone);
     ("data", PDict steps);
     ("created_at", PStr "2021-01-01T00:00:00");
     ("start_at", PNone);
     ("end_at", PNone);
     ("duration", PNone);
     ("artifacts", PDict ∅)]).

Definition step_record (status : string) : pyval :=
  PDict (list_to_map
    [("message", PStr ""); ("status", PStr status); ("data", PDict ∅)]).

(** A world whose only file is a record with a step of unknown status. *)
Definition unknown_status_world : World :=
  mkWorld {["results/task-7.json" :=
              FJson (record_of "SUCCESS" {["check" := step_record "DONE"]})]}
          {["results/"]} [] 0.

(** A result directory with two records: [a.json] is valid JSON that lacks
    every key of a result, [b.json] is a complete record. *)
Definition broken_world : World :=
  mkWorld (<["results/a.json" := FJson (PDict ∅)]>
             {["results/b.json" := FJson (record_of "SUCCESS" ∅)]})
          {["results/"]} [] 0.

(** A result directory whose first entry is not JSON at all. *)
Definition garbled_world : World :=
  mkWorld (<["results/a.json" := FText "not json"]>
             {["results/b.json" := FJson (record_of "SUCCESS" ∅)]})
          {["results/"]} [] 0.

(** A manager that holds one task, and a world with the log file of that
    task under [logs/tasks]. *)
Definition one_task_manager : TaskManager.t :=
  TaskManager.set_tasks
    (<["task-1" := Task.new Checked "task-1" "2021-01-01T00:00:00"]>)
    (TaskManager.init "artifacts/" "results/").

Definition logged_world : World :=
  mkWorld {["logs/tasks/task-1.log" :=
              FText ("Task started" +:+ String newline "Starting step a_load")]}
          {["logs/tasks"]} [] 0.

(** A task with a step result whose status is not a member of [STATUS], as
    keyword arguments with a number for status build it. *)
Definition unsaveable_task : Task.t :=
  Task.upd_result
    (TaskResult.set_data
       {["check" := StepResult.mk (PStr "") (StepResult.RawStatus (PInt 42))
                      (PDict ∅)]})
    (Task.new Task_class "task-9" "2021-01-01T00:00:00").

(** A task whose artifacts are a list, as a record may state them. *)
Definition listed_artifacts_task : Task.t :=
  Task.upd_result (TaskResult.set_artifacts (PList []))
    (Task.new Task_class "task-9" "2021-01-01T00:00:00").

(** A world with one file to hand over as an artifact. *)
Definition report_world : World :=
  mkWorld {["out/report.txt" := FText "3 rows"]} ∅ [] 0.

(** A result directory whose one record has a dot in its stem. *)
Definition dotted_world : World :=
  mkWorld {["results/task-1.v2.json" := FJson (record_of "SUCCESS" ∅)]}
          {["results/"]} [] 0.

(** Strings in the one format [isoformat()] writes compare as the datetimes
    they denote. *)
Definition sample_order : DatetimeOrder (H := sample_externals) :=
  @Build_DatetimeOrder sample_externals
    (λ a b : string, negb (String.leb b a))
    (λ a : string, has_char "+"%char a).

(** A manager that holds two tasks created a day apart. *)
Definition two_task_manager : TaskManager.t :=
  TaskManager.set_tasks
    (λ _, <["task-1" := Task.new Checked "task-1" "2021-01-01T00:00:00"]>
            {["task-2" := Task.new Pipeline "task-2" "2021-01-02T00:02:00"]})
    (TaskManager.init "artifacts/" "results/").


(** A class whose one step returns a tuple. *)
Definition Paired : TaskClass :=
  mkClass "Paired"
    [("measure", Method true (λ _, mret (PTuple [PInt 1; PInt 2])))].

(** A class whose one step returns a set. *)
Definition Collecting : TaskClass :=
  mkClass "Collecting"
    [("collect", Method true (λ _, mret (PSet [PInt 1; PInt 2])))].


(** A manager whose two tasks were created at times one of which states its
    offset from UTC and the other does not. *)
Definition mixed_manager : TaskManager.t :=
  TaskManager.set_tasks
    (λ _, <["task-1" := Task.new Checked "task-1" "2021-01-01T00:00:00"]>
            {["task-2" := Task.new Pipeline "task-2" "2021-01-02T00:02:00+00:00"]})
    (TaskManager.init "artifacts/" "results/").


(** * Properties *)

(** ** The exit code *)

Lemma status_is_Status (m s : STATUS) (msg d : pyval) :
  StepResult.status_is m (StepResult.mk msg (StepResult.Status s) d) = true
  ↔ s = m.
Proof. unfold StepResult.status_is; simpl. by rewrite bool_decide_eq_true. Qed.

Lemma all_error_forallb (d : gmap string StepResult.t) :
  forallb (λ kv, StepResult.status_is ERROR kv.2) (map_to_list d) = true
  ↔ ∀ name sr, d !! name = Some sr → StepResult.status_is ERROR sr = true.
Proof.
  rewrite forallb_forall. split.
  - intros Hall name sr Hlook.
    apply (Hall (name, sr)), list_elem_of_In, elem_of_map_to_list, Hlook.
  - intros Hall [name sr] Hin. simpl.
    apply (Hall name), elem_of_map_to_list, list_elem_of_In, Hin.
Qed.

(** C4. The exit code of a task result is 1 exactly when its step mapping is
    empty or every step result in it has the status ERROR, and it is 0 in
    every other case. *)
Theorem exit_code_spec (r : TaskResult.t) :
  let failed :=
    TaskResult.data r = ∅ ∨
    ∀ name sr, TaskResult.data r !! name = Some sr →
               StepResult.status_is ERROR sr = true in
  (TaskResult.exit_code r = 1%Z ↔ failed) ∧
  (TaskResult.exit_code r = 0%Z ↔ ¬ failed).
Proof.
  intros failed. unfold TaskResult.exit_code.
  case_bool_decide as Hsize.
  - apply map_size_empty_iff in Hsize.
    assert (failed) by (by left). split; split; intros; try done.
  - destruct (forallb _ _) eqn:Hall.
    + assert (failed) by (right; by apply all_error_forallb).
      split; split; intros; try done.
    + assert (¬ failed) as Hnot.
      { intros [Hempty | Hevery].
        - apply Hsize. by rewrite Hempty, map_size_empty.
        - apply (proj2 (all_error_forallb _)) in Hevery. congruence. }
      split; split; intros; try done.
Qed.

(** ** Discovery of the steps *)

Lemma ascii_compare_Lt_trans (a b c : Ascii.ascii) :
  Ascii.compare a b = Lt → Ascii.compare b c = Lt → Ascii.compare a c = Lt.
Proof. unfold Ascii.compare. rewrite !N.compare_lt_iff. lia. Qed.

Lemma string_compare_not_Gt_trans (s1 s2 s3 : string) :
  String.compare s1 s2 ≠ Gt → String.compare s2 s3 ≠ Gt →
  String.compare s1 s3 ≠ Gt.
Proof.
  revert s2 s3. induction s1 as [|c1 s1 IH]; intros [|c2 s2] [|c3 s3];
    simpl; try done.
  destruct (Ascii.compare c1 c2) eqn:H12; [| |done].
  - apply Ascii.compare_eq_iff in H12 as ->.
    destruct (Ascii.compare c2 c3); [apply IH|done..].
  - intros _. destruct (Ascii.compare c2 c3) eqn:H23; [| |done].
    + apply Ascii.compare_eq_iff in H23 as <-. by rewrite H12.
    + by rewrite (ascii_compare_Lt_trans _ _ _ H12 H23).
Qed.

Lemma str_le_not_Gt (a b : string) : str_le a b ↔ String.compare a b ≠ Gt.
Proof. unfold str_le, String.leb. by destruct (String.compare a b). Qed.

#[global] Instance str_le_trans : Transitive str_le.
Proof.
  intros a b c. rewrite !str_le_not_Gt. apply string_compare_not_Gt_trans.
Qed.

#[global] Instance str_le_total : Total str_le.
Proof. intros a b. apply String.leb_total. Qed.

Lemma StronglySorted_filter {A} (R : relation A) (P : A → Prop)
    `{∀ x, Decision (P x)} (l : list A) :
  StronglySorted R l → StronglySorted R (filter P l).
Proof.
  induction 1 as [|x l Hsorted IH Hall]; [constructor|].
  rewrite filter_cons. case_decide; [|done].
  constructor; [done|]. apply Forall_forall. intros y Hy.
  apply list_elem_of_filter in Hy as [_ Hy].
  by apply (proj1 (Forall_forall _ _) Hall).
Qed.

Lemma discover_NoDup (c : TaskClass) : NoDup (discover c).
Proof.
  unfold discover, dir_. apply NoDup_filter.
  rewrite merge_sort_Permutation. apply NoDup_remove_dups.
Qed.


Lemma new_data (c : TaskClass) (tid created name : string) :
  name ∈ discover c →
  TaskResult.data (Task.result (Task.new c tid created)) !! name
    = Some StepResult.default.
Proof.
  intros Hin. simpl. apply elem_of_list_to_map.
  - rewrite <- list_fmap_compose. simpl.
    rewrite (list_fmap_ext _ id (discover c) ) by done.
    rewrite list_fmap_id. apply discover_NoDup.
  - apply list_elem_of_fmap. eauto.
Qed.

(** Whatever the class, the steps are discovered in the ascending order of
    their names, compared character by character. *)
Lemma discover_sorted (c : TaskClass) : StronglySorted str_le (discover c).
Proof.
  unfold discover, dir_.
  apply StronglySorted_filter, StronglySorted_merge_sort; apply _.
Qed.

(** So a class whose tagged methods are not declared in that order does not
    get them in the order it declares them. *)
Lemma discover_not_declared (c : TaskClass) :
  ¬ StronglySorted str_le (declared_steps c) → discover c ≠ declared_steps c.
Proof. intros Hnot Heq. apply Hnot. rewrite <- Heq. apply discover_sorted. Qed.

(** C1. The documentation of [Task] promises that the steps run in the order
    the class defines them.  [Pipeline] declares [fetch] before [build]; the
    list built at construction is in the order of [dir], [build] before
    [fetch], and the run starts the steps in that order. *)
Theorem discovery_order_Pipeline :
  declared_steps Pipeline = ["fetch"; "build"] ∧
  Task.steps (Task.new Pipeline "task-1" "2021-01-01T00:00:00")
    = ["build"; "fetch"] ∧
  started_steps
    (Task.execute (H := sample_externals)
       (Task.new Pipeline "task-1" "2021-01-01T00:00:00", empty_world)).2.2
    = ["build"; "fetch"].
Proof. vm_compute. done. Qed.

(** ** The run of a task *)

Section execution.
Context `{Externals}.
Implicit Types (s : Task.St) (name : string).

Lemma bind_unfold {S A B} (m : M S A) (f : A → M S B) (s : S) :
  (m ≫= f) s = match m s with
               | (Ok a, s') => f a s'
               | (Raise e, s') => (Raise e, s')
               end.
Proof. reflexivity. Qed.



Ltac step_unfold :=
  unfold Task.set_step_status, Task.set_step_data, Task.info, Task.error,
    Task.on_world, Task.on_result, zoom, logger_info, logger_error,
    modify, raise, mret, M_ret, data_of in *; simpl in *.















Lemma begin_spec (k : Task.t) (w : World) :
  ∃ now w',
    Task.begin (k, w) =
    (Ok tt, (Task.upd_result
               (λ r, TaskResult.set_start_at (PStr now)
                       (TaskResult.set_status RUNNING r)) k, w')).
Proof.
  unfold Task.begin, mbind, M_bind. step_unfold.
  unfold fresh_now. simpl. eauto.
Qed.

Lemma finish_task s :
  ∃ now,
    (Task.finish s).2.1 =
    Task.upd_result (TaskResult.set_end_at (PStr now)) s.1.
Proof.
  destruct s as [k w]. exists (now_isoformat (ticks w)).
  unfold Task.finish, Task.save_result, mbind, M_bind. step_unfold.
  unfold fresh_now, os_makedirs, open_write, json_dump, lift_res, gets,
    modify. simpl.
  destruct (TaskResult.to_dict _) as [d|]; [|done]. simpl.
  by destruct (json_encodable d).
Qed.

(** The task a run leaves behind: what the loop left, marked by the
    handler or by the [else] suite, with its end time. *)
Lemma execute_task (k : Task.t) (w : World) :
  Task.is_executable k = true →
  ∃ now,
    (Task.execute (k, w)).2.1 =
    Task.upd_result (TaskResult.set_end_at (PStr now))
      match Task.run (Task.begin (k, w)).2 with
      | (Ok _, s1) =>
          Task.upd_result (TaskResult.set_status SUCCESS) s1.1
      | (Raise e, s1) =>
          Task.upd_result
            (λ r, TaskResult.set_status ERROR
                    (TaskResult.set_exit_message (PStr (exn_str e)) r)) s1.1
      end.
Proof.
  intros Hexec. destruct (begin_spec k w) as (now0 & w0 & Hbegin).
  unfold Task.execute. rewrite bind_unfold. unfold gets. cbn [fst].
  rewrite Hexec. cbn [negb]. rewrite bind_unfold, Hbegin. cbn [snd].
  rewrite bind_unfold. unfold try_except_else.
  destruct (Task.run _) as [[[]|e] [k1 w1]]; cbn [fst snd].
  - unfold mbind, M_bind. step_unfold. apply finish_task.
  - unfold mbind, M_bind. step_unfold. apply finish_task.
Qed.
End execution.

Section failing_run.
Context `{Externals}.




(** C3. A task with no discovered step ends its run with the status ERROR,
    the exit code 1 and the exit message "No steps to execute". *)
Theorem no_steps_is_an_error (c : TaskClass) (tid created : string)
    (w : World) :
  discover c = [] →
  let final := Task.result (Task.execute (Task.new c tid created, w)).2.1 in
  TaskResult.status final = ERROR ∧
  TaskResult.exit_code final = 1%Z ∧
  TaskResult.exit_message final = PStr "No steps to execute".
Proof.
  intros Hnone final. subst final.
  destruct (execute_task (Task.new c tid created) w eq_refl) as [now ->].
  destruct (begin_spec (Task.new c tid created) w) as (now0 & w0 & ->).
  unfold Task.run. rewrite bind_unfold. unfold gets, Task.new.
  rewrite Hnone. done.
Qed.
End failing_run.




(** The run of [Task] itself, which has no step. *)
Lemma no_steps_is_an_error_witness :
  let final :=
    Task.result
      (Task.execute (H := sample_externals)
         (Task.new Task_class "task-1" "2021-01-01T00:00:00", empty_world)).2.1 in
  discover Task_class = [] ∧
  TaskResult.status final = ERROR ∧
  TaskResult.exit_code final = 1%Z ∧
  TaskResult.exit_message final = PStr "No steps to execute".
Proof.
  split; [vm_compute; reflexivity|].
  exact (no_steps_is_an_error (H := sample_externals) Task_class "task-1"
           "2021-01-01T00:00:00" empty_world ltac:(vm_compute; reflexivity)).
Defined.

(** ** Artifacts *)

Section artifacts.
Context `{Externals}.

(** C7. When the source path does not exist, [add_artifact] raises
    [FileNotFoundError] and the task is left as it was, its artifacts
    mapping included: no entry is added. *)
Theorem add_artifact_missing_source (k : Task.t) (w : World)
    (path artifact_path : string) :
  path_exists w path = false →
  ∃ e k' w',
    Task.add_artifact path artifact_path (k, w) = (Raise e, (k', w')) ∧
    exn_type e = FileNotFoundError ∧
    TaskResult.artifacts (Task.result k') = TaskResult.artifacts (Task.result k) ∧
    k' = k.
Proof.
  intros Hmissing.
  assert (files w !! path = None) as Hnone.
  { unfold path_exists in Hmissing. apply orb_false_iff in Hmissing as [Hf _].
    apply bool_decide_eq_false in Hf. by apply eq_None_not_Some. }
  unfold Task.add_artifact, Task.on_view, Task.add_artifact_of, zoom,
    mbind, M_bind, view_world, zoom, logger_info, os_makedirs, os_rename,
    modify. simpl. rewrite Hnone.
  eexists _, _, _. split_and!; [done..|].
  by destruct k as [? ? ? ? [] ?].
Qed.
End artifacts.

Lemma add_artifact_missing_source_witness :
  let task := Task.new Checked "task-1" "2021-01-01T00:00:00" in
  path_exists empty_world "report.txt" = false ∧
  ∃ e,
    Task.add_artifact (H := sample_externals) "report.txt" "artifacts/"
      (task, empty_world)
    = (Raise e,
       (task, mkWorld ∅ {["artifacts/"]}
                [LogRecord "task-1" LInfo "Adding artifact report.txt"] 0)) ∧
    exn_type e = FileNotFoundError.
Proof.
  intros task. split; [vm_compute; reflexivity|].
  destruct (add_artifact_missing_source (H := sample_externals) task
              empty_world "report.txt" "artifacts/"
              ltac:(vm_compute; reflexivity))
    as (e & k' & w' & Hrun & Hclass & _ & _).
  exists e. split; [|exact Hclass].
  etransitivity; [exact Hrun|].
  vm_compute in Hrun. injection Hrun as <- <- <-. vm_compute. reflexivity.
Defined.

(** ** Status strings *)

Lemma list_mapM_raised {A B} (f : A → Res B) (l : list A) (x : A) :
  x ∈ l → raised (f x) → raised (list_mapM f l).
Proof.
  intros Hin [e He]. induction l as [|y l IH]; [by apply elem_of_nil in Hin|].
  simpl. apply elem_of_cons in Hin as [<-|Hin].
  - rewrite He. by exists e.
  - destruct (f y) as [b|e']; [|by exists e']. simpl.
    destruct (IH Hin) as [e' ->]. by exists e'.
Qed.

Lemma dict_mapM_raised {A B} (f : A → Res B) (m : gmap string A)
    (k : string) (x : A) :
  m !! k = Some x → raised (f x) → raised (dict_mapM f m).
Proof.
  intros Hk [e He]. unfold dict_mapM.
  destruct (list_mapM_raised (λ kv, b ← f kv.2; mret (kv.1, b))
              (map_to_list m) (k, x)) as [e' ->].
  - by apply elem_of_map_to_list.
  - simpl. rewrite He. by exists e.
  - by exists e'.
Qed.

Lemma STATUS_lookup_value (m : STATUS) : STATUS_lookup (STATUS_value m) = Some m.
Proof. by destruct m. Qed.

Lemma STATUS_lookup_Some (s : string) (m : STATUS) :
  STATUS_lookup s = Some m → STATUS_value m = s.
Proof.
  unfold STATUS_lookup. intros Hfind.
  apply find_some in Hfind as [_ Heq]. by apply String.eqb_eq in Heq.
Qed.

Lemma STATUS_lookup_None (s : string) :
  s ∉ ["PENDING"; "RUNNING"; "SUCCESS"; "ERROR"] → STATUS_lookup s = None.
Proof.
  intros Hnot. destruct (STATUS_lookup s) as [m|] eqn:Hfind; [|done].
  apply STATUS_lookup_Some in Hfind as <-.
  exfalso. apply Hnot. apply list_elem_of_In. destruct m; simpl; tauto.
Qed.

Section status_strings.
Context `{Externals}.

Lemma init_unknown_status (message data : pyval) (s : string) :
  s ∉ ["PENDING"; "RUNNING"; "SUCCESS"; "ERROR"] →
  ∃ e, StepResult.init message (StepResult.RawStatus (PStr s)) data = Raise e ∧
       exn_type e = ValueError.
Proof.
  intros Hnot. unfold StepResult.init, StepResult.post_init. simpl.
  rewrite (STATUS_lookup_None s Hnot). simpl. eauto.
Qed.

Lemma from_kwargs_unknown_status (kw : gmap string pyval) (s : string) :
  kw !! "status" = Some (PStr s) →
  s ∉ ["PENDING"; "RUNNING"; "SUCCESS"; "ERROR"] →
  raised (StepResult.from_kwargs (PDict kw)).
Proof.
  intros Hstatus Hnot. unfold StepResult.from_kwargs.
  case_bool_decide; [|by eexists].
  rewrite Hstatus. simpl.
  destruct (init_unknown_status
              (from_option id (PStr "") (kw !! "message"))
              (from_option id (PDict ∅) (kw !! "data")) s Hnot) as (e & -> & _).
  by exists e.
Qed.

(** C10. A step result built from a status string holds the member of the
    enumeration with that value when the string is one of the four values,
    and is not built at all when it is any other string: the construction
    raises [ValueError], and so does not return the loading of a record in
    which a step carries such a status. *)
Theorem status_string_is_coerced_or_rejected (message data : pyval)
    (s : string) :
  (s ∈ ["PENDING"; "RUNNING"; "SUCCESS"; "ERROR"] →
   ∃ m, STATUS_value m = s ∧ m ∈ STATUS_members ∧
        StepResult.init message (StepResult.RawStatus (PStr s)) data
          = Ok (StepResult.mk message (StepResult.Status m) data)) ∧
  (s ∉ ["PENDING"; "RUNNING"; "SUCCESS"; "ERROR"] →
   (∃ e, StepResult.init message (StepResult.RawStatus (PStr s)) data
           = Raise e ∧
         exn_type e = ValueError) ∧
   ∀ (w : World) (path : string) (record : pyval)
     (items kw : gmap string pyval) (name : string),
     files w !! path = Some (FJson record) →
     getitem record "data" = Ok (PDict items) →
     items !! name = Some (PDict kw) →
     kw !! "status" = Some (PStr s) →
     ∃ e w', Task.load_from_file path w = (Raise e, w')).
Proof.
  split.
  - intros Hin.
    assert (∃ m, STATUS_value m = s) as [m <-].
    { repeat (apply elem_of_cons in Hin as [->|Hin]);
        [by exists PENDING|by exists RUNNING|by exists SUCCESS
        |by exists ERROR|by apply elem_of_nil in Hin]. }
    exists m. split; [done|].
    split; [apply list_elem_of_In; destruct m; simpl; tauto|].
    unfold StepResult.init, StepResult.post_init. simpl.
    by rewrite STATUS_lookup_value.
  - intros Hnot. split; [by apply init_unknown_status|].
    intros w path record items kw name Hfile Hdata Hitem Hstatus.
    assert (raised (Task.read_result record)) as [e Hread].
    { unfold Task.read_result.
      destruct (getitem record "task_type") as [?|e]; [|by exists e].
      simpl.
      destruct (getitem record "status" ≫= STATUS_call) as [?|e];
        [|by exists e].
      simpl.
      destruct (getitem record "exit_message") as [?|e]; [|by exists e].
      destruct (getitem record "created_at") as [?|e]; [|by exists e].
      destruct (getitem record "start_at") as [?|e]; [|by exists e].
      destruct (getitem record "end_at") as [?|e]; [|by exists e].
      simpl. rewrite Hdata. simpl.
      destruct (dict_mapM_raised StepResult.from_kwargs items name (PDict kw)
                  Hitem (from_kwargs_unknown_status kw s Hstatus Hnot))
        as [e ->].
      by exists e. }
    unfold Task.load_from_file, mbind, M_bind, open_read, lift_res.
    rewrite Hfile. simpl. rewrite Hread. eauto.
Qed.
End status_strings.

Lemma status_string_is_coerced_or_rejected_witness :
  ("DONE" ∉ ["PENDING"; "RUNNING"; "SUCCESS"; "ERROR"]) ∧
  (∃ e w',
     Task.load_from_file (H := sample_externals) "results/task-7.json"
       unknown_status_world = (Raise e, w')).
Proof.
  assert ("DONE" ∉ ["PENDING"; "RUNNING"; "SUCCESS"; "ERROR"]) as Hnot.
  { intros Hin. apply list_elem_of_In in Hin. simpl in Hin.
    destruct Hin as [Hin|[Hin|[Hin|[Hin|[]]]]]; discriminate Hin. }
  split; [exact Hnot|].
  destruct (status_string_is_coerced_or_rejected (H := sample_externals)
              PNone PNone "DONE") as [_ Hreject].
  destruct (Hreject Hnot) as [_ Hload].
  apply (Hload unknown_status_world "results/task-7.json"
           (record_of "SUCCESS" {["check" := step_record "DONE"]})
           {["check" := step_record "DONE"]}
           (list_to_map [("message", PStr ""); ("status", PStr "DONE");
                         ("data", PDict ∅)])
           "check"); reflexivity.
Defined.

(** ** The persisted record *)

Lemma list_mapM_total {A B} (f : A → Res B) (g : A → B) (l : list A) :
  (∀ x, x ∈ l → f x = Ok (g x)) → list_mapM f l = Ok (g <$> l).
Proof.
  induction l as [|x l IH]; intros Hall; [done|]. simpl.
  rewrite (Hall x) by apply list_elem_of_here. simpl.
  rewrite IH; [done|]. intros y Hy. apply Hall. by apply list_elem_of_further.
Qed.

Lemma list_mapM_Ok_inv {A B} (f : A → Res B) (l : list A) (l' : list B) :
  list_mapM f l = Ok l' → Forall2 (λ x y, f x = Ok y) l l'.
Proof.
  revert l'. induction l as [|x l IH]; intros l' Hok; simpl in Hok.
  { injection Hok as <-. constructor. }
  destruct (f x) as [y|] eqn:Hfx; [|done]. simpl in Hok.
  destruct (list_mapM f l) as [ys|]; [|done]. simpl in Hok.
  injection Hok as <-. constructor; [done|]. by apply IH.
Qed.

Lemma list_mapM_Raise_inv {A B} (f : A → Res B) (l : list A) (e : pyexn) :
  list_mapM f l = Raise e → ∃ x, x ∈ l ∧ f x = Raise e.
Proof.
  induction l as [|x l IH]; [done|]. simpl.
  destruct (f x) as [y|e'] eqn:Hfx; simpl.
  - destruct (list_mapM f l) as [ys|e'']; [done|]. simpl. intros [= ->].
    destruct IH as (x' & Hin & Hx'); [done|].
    exists x'. split; [by apply list_elem_of_further|done].
  - intros [= ->]. exists x. split; [apply list_elem_of_here|done].
Qed.

Lemma dict_mapM_total {A B} (f : A → Res B) (g : A → B) (m : gmap string A) :
  (∀ k x, m !! k = Some x → f x = Ok (g x)) → dict_mapM f m = Ok (g <$> m).
Proof.
  intros Hall. unfold dict_mapM.
  rewrite (list_mapM_total _ (prod_map id g)).
  - simpl. unfold mret, Res_ret. f_equal.
    by rewrite list_to_map_fmap, list_to_map_to_list.
  - intros [k x] Hin. apply elem_of_map_to_list in Hin. simpl.
    by rewrite (Hall k x Hin).
Qed.

Lemma dict_mapM_Ok_inv {A B} (f : A → Res B) (m : gmap string A)
    (m' : gmap string B) (k : string) :
  dict_mapM f m = Ok m' →
  match m !! k with
  | Some x => ∃ y, f x = Ok y ∧ m' !! k = Some y
  | None => m' !! k = None
  end.
Proof.
  unfold dict_mapM. intros Hok.
  destruct (list_mapM _ (map_to_list m)) as [l'|] eqn:Hl; [|done].
  simpl in Hok. injection Hok as <-.
  apply list_mapM_Ok_inv in Hl.
  assert (Forall2 (λ kv kv', kv'.1 = kv.1 ∧ f kv.2 = Ok kv'.2)
            (map_to_list m) l') as Hrel.
  { eapply Forall2_impl; [exact Hl|]. intros [k1 x] [k2 y] Hxy. simpl in *.
    destruct (f x) as [b|]; [|done]. simpl in Hxy. by injection Hxy as <- <-. }
  assert (l'.*1 = (map_to_list m).*1) as Hkeys.
  { clear Hl. induction Hrel as [|kv kv' l l' [Hk _] _ IH]; [done|].
    rewrite !fmap_cons. by f_equal. }
  destruct (m !! k) as [x|] eqn:Hk.
  - apply elem_of_map_to_list, list_elem_of_lookup in Hk as [i Hi].
    destruct (Forall2_lookup_l _ _ _ _ _ Hrel Hi) as ([k' y] & Hi' & Hk' & Hy).
    simpl in *. subst k'. exists y. split; [done|].
    assert (NoDup l'.*1) as Hnodup
      by (rewrite Hkeys; apply NoDup_fst_map_to_list).
    apply (elem_of_list_to_map l' k y Hnodup).
    by eapply list_elem_of_lookup_2.
  - apply not_elem_of_list_to_map_1. rewrite Hkeys.
    intros Hin. apply list_elem_of_fmap in Hin as ([k' x] & -> & Hin).
    apply elem_of_map_to_list in Hin. simpl in Hk. congruence.
Qed.

Lemma dict_mapM_Raise_inv {A B} (f : A → Res B) (m : gmap string A)
    (e : pyexn) :
  dict_mapM f m = Raise e → ∃ k x, m !! k = Some x ∧ f x = Raise e.
Proof.
  unfold dict_mapM. intros Hraise.
  destruct (list_mapM _ (map_to_list m)) as [l|e'] eqn:Hl; [done|].
  simpl in Hraise. injection Hraise as ->.
  apply list_mapM_Raise_inv in Hl as ([k x] & Hin & Hx).
  apply elem_of_map_to_list in Hin. exists k, x. split; [done|].
  simpl in Hx. destruct (f x) as [b|e']; simpl in Hx; [done|].
  by injection Hx as ->.
Qed.

Section persisted_record.
Context `{Externals}.

Lemma step_to_dict_from_kwargs (sr : StepResult.t) (d : pyval) :
  StepResult.to_dict sr = Ok d → StepResult.from_kwargs d = Ok sr.
Proof.
  destruct sr as [message [s|v] data]; [|done]. simpl.
  intros [= <-]. unfold StepResult.from_kwargs.
  rewrite bool_decide_eq_true_2
    by (rewrite !dom_insert_L; set_solver).
  unfold StepResult.init, StepResult.post_init.
  repeat (rewrite lookup_insert_eq || rewrite lookup_insert_ne by done).
  simpl. by rewrite STATUS_lookup_value.
Qed.
End persisted_record.

(** *** What JSON keeps of a value *)

Lemma map_fold_andb {A} (p : A → bool) (m : gmap string A) :
  map_fold (λ _ x b, p x && b) true m = true ↔
  map_Forall (λ _ x, p x = true) m.
Proof.
  induction m as [|i x m Hi Hfold IH] using map_first_key_ind.
  { rewrite map_fold_empty. split; [intros _; apply map_Forall_empty|done]. }
  rewrite map_fold_insert_first_key by done.
  rewrite andb_true_iff, IH, map_Forall_insert by done. done.
Qed.

Lemma pyval_size_elem (l : list pyval) (x : pyval) :
  x ∈ l → pyval_size x < S (foldr (λ x n, pyval_size x + n) 0 l).
Proof.
  induction l as [|y l IH]; [by intros ?%elem_of_nil|].
  intros [->|Hin]%elem_of_cons; simpl; [lia|]. specialize (IH Hin). lia.
Qed.

Lemma pyval_size_lookup (m : gmap string pyval) (i : string) (x : pyval) :
  m !! i = Some x →
  pyval_size x < S (map_fold (λ _ x n, pyval_size x + n) 0 m).
Proof.
  induction m as [|j y m Hj Hfold IH] using map_first_key_ind; [done|].
  rewrite map_fold_insert_first_key by done.
  destruct (decide (i = j)) as [->|Hne].
  - rewrite lookup_insert_eq. intros [= ->]. lia.
  - rewrite lookup_insert_ne by done. intros Hx. specialize (IH Hx). lia.
Qed.

(** Induction on a value through the lists and the dictionaries in it. *)
Lemma pyval_ind_nested (P : pyval → Prop) :
  P PNone → (∀ b, P (PBool b)) → (∀ z, P (PInt z)) → (∀ z, P (PFloat z)) →
  (∀ s, P (PStr s)) →
  (∀ l, Forall P l → P (PList l)) →
  (∀ m, map_Forall (λ _, P) m → P (PDict m)) →
  (∀ l, Forall P l → P (PTuple l)) →
  (∀ l, Forall P l → P (PSet l)) →
  ∀ v, P v.
Proof.
  intros HNone HBool HInt HFloat HStr HList HDict HTuple HSet v.
  remember (pyval_size v) as n eqn:Hn. revert v Hn.
  induction (lt_wf n) as [n _ IH]. intros v ->.
  destruct v as [| | | | |l|m|l|l]; try done.
  - apply HList, Forall_forall. intros x Hx.
    by eapply IH; [apply pyval_size_elem|].
  - apply HDict. intros i x Hx. by eapply IH; [eapply pyval_size_lookup|].
  - apply HTuple, Forall_forall. intros x Hx.
    by eapply IH; [apply pyval_size_elem|].
  - apply HSet, Forall_forall. intros x Hx.
    by eapply IH; [apply pyval_size_elem|].
Qed.

(** A JSON value is its own image, and [json.dump] encodes it. *)
Lemma is_json_image (v : pyval) :
  is_json v = true → json_image v = v ∧ json_encodable v = true.
Proof.
  induction v as [| | | | |l IH|m IH|l IH|l IH] using pyval_ind_nested;
    try done.
  - change (forallb is_json l = true →
            PList (json_image <$> l) = PList l ∧
            forallb json_encodable l = true).
    intros Hall.
    assert (json_image <$> l = l ∧ forallb json_encodable l = true)
      as [-> ->]; [|done].
    induction IH as [|x l Hx _ IHl]; [done|].
    rewrite fmap_cons. cbn [forallb] in *.
    apply andb_true_iff in Hall as [Hjx Hjl].
    destruct (Hx Hjx) as [-> ->], (IHl Hjl) as [-> ->]. done.
  - change (map_fold (λ _ x b, is_json x && b) true m = true →
            PDict (json_image <$> m) = PDict m ∧
            map_fold (λ _ x b, json_encodable x && b) true m = true).
    rewrite !map_fold_andb. intros Hall. split.
    + f_equal. apply map_eq. intros i. rewrite lookup_fmap.
      destruct (m !! i) as [x|] eqn:Hx; [|done]. simpl. f_equal.
      by apply (IH i x Hx), (Hall i x Hx).
    + intros i x Hx. by apply (IH i x Hx), (Hall i x Hx).
Qed.

Section round_trip.
Context `{Externals}.

Lemma to_dict_read_result (r : TaskResult.t) (d : pyval) :
  TaskResult.to_dict r = Ok d → Task.read_result d = Ok r.
Proof.
  unfold TaskResult.to_dict.
  destruct (dict_mapM StepResult.to_dict (TaskResult.data r))
    as [steps|] eqn:Hsteps; [|done]. simpl.
  destruct (TaskResult.duration r) as [dur|]; [|done]. simpl.
  intros [= <-].
  assert (dict_mapM StepResult.from_kwargs steps = Ok (TaskResult.data r))
    as Hback.
  { set (g := λ y, match StepResult.from_kwargs y with
                   | Ok sr => sr
                   | Raise _ => StepResult.default
                   end).
    rewrite (dict_mapM_total _ g).
    - f_equal. apply map_eq. intros k. rewrite lookup_fmap.
      pose proof (dict_mapM_Ok_inv _ _ _ k Hsteps) as Hk.
      destruct (TaskResult.data r !! k) as [sr|].
      + destruct Hk as (y & Hy & ->). simpl. unfold g.
        by rewrite (step_to_dict_from_kwargs sr y Hy).
      + by rewrite Hk.
    - intros k y Hy.
      pose proof (dict_mapM_Ok_inv _ _ _ k Hsteps) as Hk.
      destruct (TaskResult.data r !! k) as [sr|]; [|congruence].
      destruct Hk as (y' & Hy' & Hlook). rewrite Hlook in Hy.
      injection Hy as ->. unfold g.
      by rewrite (step_to_dict_from_kwargs sr y Hy'). }
  unfold Task.read_result, getitem, dict_get, dict_items.
  rewrite ?list_to_map_cons, ?list_to_map_nil.
  repeat (rewrite lookup_insert_eq || rewrite lookup_insert_ne by done).
  simpl. rewrite STATUS_lookup_value. simpl.
  repeat (rewrite lookup_insert_eq || rewrite lookup_insert_ne by done).
  simpl. rewrite Hback. simpl.
  repeat (rewrite lookup_insert_eq || rewrite lookup_insert_ne by done).
  by destruct r.
Qed.

(** [save_result], case by case: the directory is made, the file is opened
    and so emptied, and the record is written if it can be built: all of it
    when [json.dump] can encode it, and otherwise what is written before
    [json.dump] raises. *)
Lemma save_result_cases (k : Task.t) (w : World) (dir : string) :
  let file := os_path_join dir (Task.task_id k +:+ ".json") in
  let opened :=
    set_files (<[file := FText ""]>) (set_dirs (λ ds, {[dir]} ∪ ds) w) in
  Task.save_result dir (k, w) =
  match TaskResult.to_dict (Task.result k) with
  | Ok d =>
      if json_encodable d
      then (Ok tt, (k, set_files (<[file := FJson (json_image d)]>) opened))
      else (Raise (Exn TypeError "Object of type set is not JSON serializable"),
            (k, set_files (<[file := FText (json_dumps d)]>) opened))
  | Raise e => (Raise e, (k, opened))
  end.
Proof.
  unfold Task.save_result, mbind, M_bind, Task.on_world, zoom, os_makedirs,
    open_write, json_dump, lift_res, gets, modify. simpl.
  destruct (TaskResult.to_dict (Task.result k)) as [d|]; [|done]. simpl.
  by destruct (json_encodable d).
Qed.

(** C6, as the code has it.  When the record of a result can be built and
    holds only values of the JSON data model, a dictionary having string
    keys, [save_result] returns, and loading the file it wrote gives a task
    that is not executable and whose result is the one that was saved: the
    same type, status, exit message, timestamps and artifacts, and the same
    step results, message, status and data. *)
Theorem save_then_load (k : Task.t) (w : World) (dir : string) (d : pyval) :
  TaskResult.to_dict (Task.result k) = Ok d →
  is_json d = true →
  ∃ w' loaded w'',
    Task.save_result dir (k, w) = (Ok tt, (k, w')) ∧
    Task.load_from_file (os_path_join dir (Task.task_id k +:+ ".json")) w'
      = (Ok loaded, w'') ∧
    Task.is_executable loaded = false ∧
    Task.result loaded = Task.result k.
Proof.
  intros Hd Hjson. destruct (is_json_image d Hjson) as [Himage Henc].
  rewrite save_result_cases. cbv zeta. rewrite Hd, Henc, Himage.
  eexists _, _, _. split; [reflexivity|].
  unfold Task.load_from_file, mbind, M_bind, open_read, lift_res. simpl.
  rewrite lookup_insert_eq. simpl.
  rewrite (to_dict_read_result _ _ Hd). simpl.
  split; [reflexivity|]. by split.
Qed.
End round_trip.

Lemma save_then_load_witness :
  let task := Task.new Checked "task-1" "2021-01-01T00:00:00" in
  ∃ w' loaded w'',
    Task.save_result (H := sample_externals) "results/" (task, empty_world)
      = (Ok tt, (task, w')) ∧
    Task.load_from_file (H := sample_externals) "results/task-1.json" w'
      = (Ok loaded, w'') ∧
    Task.is_executable loaded = false ∧
    Task.result loaded = Task.result task.
Proof.
  intros task.
  set (d := match TaskResult.to_dict (H := sample_externals)
                    (Task.result task) with
            | Ok d => d
            | Raise _ => PNone
            end).
  assert (TaskResult.to_dict (H := sample_externals) (Task.result task)
          = Ok d) as Hd by (vm_compute; reflexivity).
  exact (save_then_load (H := sample_externals) task empty_world "results/"
           d Hd ltac:(vm_compute; reflexivity)).
Defined.

(** C6, as the claim states it, fails.  The step of [Paired] returns a
    tuple.  The run stores it as the data of the step and saves the result;
    JSON has no tuple, the file holds a list, and the result loaded from the
    file holds a list where the saved one holds a tuple. *)
Lemma tuple_payload_is_loaded_as_a_list :
  let task := Task.new Paired "task-1" "2021-01-01T00:00:00" in
  let run := Task.execute (H := sample_externals) (task, empty_world) in
  let loaded :=
    Task.load_from_file (H := sample_externals) "results/task-1.json"
      run.2.2 in
  (∃ d, run.1 = Ok d) ∧
  StepResult.data <$> TaskResult.data (Task.result run.2.1) !! "measure"
    = Some (PTuple [PInt 1; PInt 2]) ∧
  ∃ k, loaded.1 = Ok k ∧
       Task.is_executable k = false ∧
       StepResult.data <$> TaskResult.data (Task.result k) !! "measure"
         = Some (PList [PInt 1; PInt 2]) ∧
       Task.result k ≠ Task.result run.2.1.
Proof.
  vm_compute. split; [by eexists|]. split; [done|].
  eexists. split; [done|]. split; [done|]. split; [done|]. discriminate.
Qed.

(** ** The scan of the result directory *)

Section scan.
Context `{Externals}.

Lemma load_entries_cons (file : string) (rest : list string)
    (s : TaskManager.St) :
  TaskManager.load_entries (file :: rest) s =
  match TaskManager.load_entry file s with
  | (Ok _, s') => TaskManager.load_entries rest s'
  | (Raise e, s') => (Raise e, s')
  end.
Proof. reflexivity. Qed.

(** C5, as the code has it.  A record that is not valid JSON is logged as an
    error and skipped: the scan of that entry and of the entries after it is
    the scan of the entries after it, from the same registry, with the two
    records of the skipped entry in the log. *)
Theorem undecodable_record_is_skipped (m : TaskManager.t) (w : World)
    (file text : string) (rest : list string) :
  files w !! os_path_join (TaskManager.path_result m) file
    = Some (FText text) →
  let task_id := split_dot_head file in
  let logged :=
    set_log (λ l, l ++ [LogRecord (TaskManager.logger m) LError
                          ("Error loading task " +:+ task_id +:+ " from disk")])
      (set_log (λ l, l ++ [LogRecord (TaskManager.logger m) LInfo
                             ("Loading task " +:+ task_id +:+ " from disk")])
         w) in
  TaskManager.load_entry file (m, w) = (Ok tt, (m, logged)) ∧
  TaskManager.load_entries (file :: rest) (m, w)
    = TaskManager.load_entries rest (m, logged).
Proof.
  intros Hfile task_id logged.
  assert (TaskManager.load_entry file (m, w) = (Ok tt, (m, logged))) as Hentry.
  { unfold TaskManager.load_entry, try_except_else, mbind, M_bind,
      TaskManager.info, TaskManager.error, TaskManager.on_world, zoom,
      logger_info, logger_error, gets, modify. simpl.
    unfold Task.load_from_file, mbind, M_bind, open_read, lift_res. simpl.
    by rewrite Hfile. }
  split; [done|]. by rewrite load_entries_cons, Hentry.
Qed.
End scan.

Lemma undecodable_record_is_skipped_witness :
  let m := TaskManager.init "artifacts/" "results/" in
  let scan :=
    TaskManager.load_entries (H := sample_externals) ["a.json"; "b.json"]
      (m, garbled_world) in
  files garbled_world !! "results/a.json" = Some (FText "not json") ∧
  scan.1 = Ok tt ∧
  dom (TaskManager.tasks scan.2.1) = {["b"]} ∧
  log_msg <$> log scan.2.2
    = ["Loading task a from disk"; "Error loading task a from disk";
       "Loading task b from disk"].
Proof.
  intros m scan. split; [reflexivity|].
  destruct (undecodable_record_is_skipped (H := sample_externals) m
              garbled_world "a.json" "not json" ["b.json"] eq_refl)
    as [_ Hscan].
  unfold scan. rewrite Hscan. vm_compute. done.
Defined.

(** C5, as the claim states it, fails.  [a.json] holds valid JSON that is
    not a result record: loading it raises [KeyError], which the handler of
    [load_from_disk] does not catch.  No error is logged, the scan stops, and
    [b.json], a complete record, never reaches the registry. *)
Lemma malformed_record_aborts_the_scan :
  let m := TaskManager.init "artifacts/" "results/" in
  let scan :=
    TaskManager.load_from_disk (H := sample_externals) (m, broken_world) in
  (os_listdir (H := sample_externals) "results/" broken_world).1
    = Ok ["a.json"; "b.json"] ∧
  (Task.load_from_file (H := sample_externals) "results/a.json" broken_world).1
    = Raise (Exn KeyError "'task_type'") ∧
  (∃ task,
     (Task.load_from_file (H := sample_externals) "results/b.json"
        broken_world).1 = Ok task) ∧
  scan.1 = Raise (Exn KeyError "'task_type'") ∧
  TaskManager.tasks scan.2.1 = ∅ ∧
  log scan.2.2 = [LogRecord "app" LInfo "Loading task a from disk"].
Proof.
  vm_compute. split_and!; try reflexivity. eexists. reflexivity.
Qed.

(** ** The status query *)

Lemma readlines_unlines (text : string) : unlines (readlines text) = text.
Proof.
  induction text as [|c text IH]; [done|]. simpl.
  destruct (Ascii.eqb c newline).
  - simpl. by rewrite IH.
  - destruct (readlines text) as [|line lines]; simpl in *; by rewrite <- IH.
Qed.

Section status_query.
Context `{Externals}.

(** C8. [get_task_status] raises [ValueError] for an identity the registry
    does not hold.  For a registered task whose result serializes, it
    returns the serialized result with a field [logs]: the lines of the file
    [<logs_dir>/<identity>.log], which put end to end are the text of the
    file, when a directory is given and the file is there; the empty list
    when no directory is given, when the directory given is the empty
    string, or when nothing exists at that path. *)
Theorem get_task_status_spec (m : TaskManager.t) (w : World)
    (task_id : string) :
  (TaskManager.tasks m !! task_id = None →
   ∀ logs_dir,
     TaskManager.get_task_status task_id logs_dir (m, w) =
     (Raise (Exn ValueError ("Task " +:+ task_id +:+ " not found")), (m, w))) ∧
  (∀ task d,
     TaskManager.tasks m !! task_id = Some task →
     TaskResult.to_dict (Task.result task) = Ok (PDict d) →
     let answer lines :=
       (Ok (PDict (<["logs" := PList (PStr <$> lines)]> d)), (m, w)) in
     (∀ dir c,
        dir ≠ "" →
        files w !! os_path_join dir (task_id +:+ ".log") = Some c →
        TaskManager.get_task_status task_id (Some dir) (m, w)
          = answer (readlines (file_text c)) ∧
        unlines (readlines (file_text c)) = file_text c) ∧
     TaskManager.get_task_status task_id None (m, w) = answer [] ∧
     TaskManager.get_task_status task_id (Some "") (m, w) = answer [] ∧
     (∀ dir,
        path_exists w (os_path_join dir (task_id +:+ ".log")) = false →
        TaskManager.get_task_status task_id (Some dir) (m, w) = answer [])).
Proof.
  split.
  - intros Hnone logs_dir.
    unfold TaskManager.get_task_status. rewrite bind_unfold. unfold gets.
    cbn [fst snd]. by rewrite Hnone.
  - intros task d Hsome Hdict answer.
    assert (∀ logs_dir lines s',
      (match logs_dir with
       | Some dir =>
           if negb (String.eqb dir "")
           then found ← TaskManager.on_world
                          (os_path_exists
                             (os_path_join dir (task_id +:+ ".log")));
                if (found : bool)
                then c ← TaskManager.on_world
                           (open_read (os_path_join dir (task_id +:+ ".log")));
                     mret (readlines (file_text c))
                else mret []
           else mret []
       | None => mret []
       end : M TaskManager.St (list string)) (m, w) = (Ok lines, s') →
      s' = (m, w) →
      TaskManager.get_task_status task_id logs_dir (m, w) = answer lines)
      as Hanswer.
    { intros logs_dir lines s' Hlines ->.
      unfold TaskManager.get_task_status. rewrite bind_unfold. unfold gets.
      cbn [fst snd]. rewrite Hsome. rewrite bind_unfold, Hlines.
      rewrite bind_unfold. unfold lift_res. by rewrite Hdict. }
    split_and!.
    + intros dir c Hdir Hfile. split; [|apply readlines_unlines].
      eapply Hanswer; [|done].
      apply String.eqb_neq in Hdir. rewrite Hdir. cbn [negb].
      unfold mbind, M_bind, TaskManager.on_world, zoom, os_path_exists,
        open_read, gets, path_exists. cbn [fst snd].
      rewrite Hfile. rewrite bool_decide_eq_true_2 by eauto.
      cbn [orb fst snd]. by rewrite Hfile.
    + by eapply Hanswer.
    + by eapply Hanswer.
    + intros dir Hmissing. eapply Hanswer; [|done].
      destruct (negb (String.eqb dir "")); [|done].
      unfold mbind, M_bind, TaskManager.on_world, zoom, os_path_exists,
        gets. cbn [fst snd]. by rewrite Hmissing.
Qed.
End status_query.

Lemma get_task_status_spec_witness :
  ∃ d,
    TaskResult.to_dict (H := sample_externals)
      (Task.result (Task.new Checked "task-1" "2021-01-01T00:00:00"))
      = Ok (PDict d) ∧
    TaskManager.get_task_status (H := sample_externals) "task-1"
      (Some "logs/tasks") (one_task_manager, logged_world)
    = (Ok (PDict (<["logs" :=
                      PList [PStr ("Task started" +:+ String newline "");
                             PStr "Starting step a_load"]]> d)),
       (one_task_manager, logged_world)).
Proof.
  set (task := Task.new Checked "task-1" "2021-01-01T00:00:00").
  set (d := match TaskResult.to_dict (H := sample_externals)
                    (Task.result task) with
            | Ok (PDict d) => d
            | _ => ∅
            end).
  assert (TaskResult.to_dict (H := sample_externals) (Task.result task)
          = Ok (PDict d)) as Hd by (vm_compute; reflexivity).
  exists d. split; [exact Hd|].
  destruct (get_task_status_spec (H := sample_externals) one_task_manager
              logged_world "task-1") as [_ Hregistered].
  destruct (Hregistered task d eq_refl Hd) as (Hfile & _).
  destruct (Hfile "logs/tasks"
              (FText ("Task started" +:+ String newline "Starting step a_load"))
              ltac:(discriminate) eq_refl) as [Hanswer _].
  exact Hanswer.
Defined.

(** * Further properties of the code *)

(** ** More on the run of a task *)

Section run_outcomes.
Context `{Externals}.
Implicit Types (s : Task.St) (name : string).






Lemma new_data_inv (c : TaskClass) (tid created name : string)
    (sr : StepResult.t) :
  TaskResult.data (Task.result (Task.new c tid created)) !! name = Some sr →
  name ∈ discover c ∧ sr = StepResult.default.
Proof.
  simpl. intros Hlook. apply elem_of_list_to_map_2 in Hlook.
  apply list_elem_of_fmap in Hlook as (name' & [= -> ->] & Hin). done.
Qed.


End run_outcomes.

(** ** The exit code of a run *)

Lemma exit_code_0 (r : TaskResult.t) (name : string) (sr : StepResult.t) :
  TaskResult.data r !! name = Some sr →
  StepResult.status_is ERROR sr = false →
  TaskResult.exit_code r = 0%Z.
Proof.
  intros Hsr Hnot. unfold TaskResult.exit_code.
  rewrite bool_decide_eq_false_2.
  - destruct (forallb _ _) eqn:Hall; [|done].
    pose proof (proj1 (all_error_forallb _) Hall name sr Hsr). congruence.
  - intros Hsize. apply map_size_empty_iff in Hsize. by rewrite Hsize in Hsr.
Qed.


Section run_exit_code.
Context `{Externals}.


End run_exit_code.

(** ** Saving, loading and running again *)

Section persistence.
Context `{Externals}.

(** [load_from_file] on a file that holds a record: the task it builds. *)
Lemma load_from_file_record (w : World) (path : string) (d : pyval)
    (r : TaskResult.t) :
  files w !! path = Some (FJson d) →
  Task.read_result d = Ok r →
  Task.load_from_file path w =
  (Ok (Task.mk (removesuffix ".json" (os_path_basename path))
               ("task-" +:+ uuid4 (ticks w)) false [] r Task_class),
   set_ticks S (set_ticks S w)).
Proof.
  intros Hfile Hread.
  unfold Task.load_from_file, mbind, M_bind, open_read, lift_res. simpl.
  rewrite Hfile. simpl. by rewrite Hread.
Qed.

(** X4. A task that [load_from_file] built cannot be run: [execute] raises
    [ValueError] and leaves the task and the world as they were. *)
Theorem loaded_task_is_not_executable (w w' w'' : World) (path : string)
    (k : Task.t) :
  Task.load_from_file path w = (Ok k, w') →
  Task.execute (k, w'') =
  (Raise (Exn ValueError "Task is not executable"), (k, w'')).
Proof.
  unfold Task.load_from_file, mbind, M_bind, open_read, lift_res. simpl.
  destruct (files w !! path) as [c|]; [|by case_bool_decide].
  destruct (json_load c) as [d|]; [|done]. simpl.
  destruct (Task.read_result d) as [r|]; [|done]. simpl.
  by intros [= <- <-].
Qed.

(** X5. [load_from_file] fails without a trace when there is nothing to
    read: [FileNotFoundError] when nothing exists at the path and
    [JSONDecodeError] when the file is not JSON; in both cases the world is
    the one it was given. *)
Theorem load_from_file_unreadable (w : World) (path : string) :
  (path_exists w path = false →
   ∃ e, Task.load_from_file path w = (Raise e, w) ∧
        exn_type e = FileNotFoundError) ∧
  (∀ text, files w !! path = Some (FText text) →
   ∃ e, Task.load_from_file path w = (Raise e, w) ∧
        exn_type e = JSONDecodeError).
Proof.
  split.
  - intros Hmissing. unfold path_exists in Hmissing.
    apply orb_false_iff in Hmissing as [Hf Hd].
    apply bool_decide_eq_false in Hf. apply eq_None_not_Some in Hf.
    unfold Task.load_from_file, mbind, M_bind, open_read. simpl.
    rewrite Hf, Hd. eauto.
  - intros text Hfile.
    unfold Task.load_from_file, mbind, M_bind, open_read, lift_res. simpl.
    rewrite Hfile. simpl. eauto.
Qed.


(** X7. [save_result] opens the file before it builds the record.  When the
    record cannot be built it raises the error of [to_dict] and leaves the
    file empty, whatever it held, so that loading it then fails with
    [JSONDecodeError]; the task is untouched. *)
Theorem save_result_failure_empties_the_file (k : Task.t) (w : World)
    (dir : string) (e : pyexn) :
  TaskResult.to_dict (Task.result k) = Raise e →
  let file := os_path_join dir (Task.task_id k +:+ ".json") in
  ∃ w',
    Task.save_result dir (k, w) = (Raise e, (k, w')) ∧
    files w' !! file = Some (FText "") ∧
    (∀ other, other ≠ file → files w' !! other = files w !! other) ∧
    ∃ e', Task.load_from_file file w' = (Raise e', w') ∧
          exn_type e' = JSONDecodeError.
Proof.
  intros Hfail file. rewrite save_result_cases. cbv zeta. rewrite Hfail.
  eexists. split; [done|]. split; [apply lookup_insert_eq|].
  split; [by intros other Hne; apply lookup_insert_ne|].
  unfold Task.load_from_file, mbind, M_bind, open_read, lift_res. simpl.
  rewrite lookup_insert_eq. simpl. eauto.
Qed.

(** X8. When the record can be built and [json.dump] can encode it,
    [save_result] returns, makes the directory, writes to
    [<dir>/<identity>.json], over whatever was there, what JSON keeps of the
    record, and touches neither the task, nor any other file, nor the
    log. *)
Theorem save_result_writes_one_file (k : Task.t) (w : World) (dir : string)
    (d : pyval) :
  TaskResult.to_dict (Task.result k) = Ok d →
  json_encodable d = true →
  let file := os_path_join dir (Task.task_id k +:+ ".json") in
  ∃ w',
    Task.save_result dir (k, w) = (Ok tt, (k, w')) ∧
    files w' = <[file := FJson (json_image d)]> (files w) ∧
    dirs w' = {[dir]} ∪ dirs w ∧
    log w' = log w ∧ ticks w' = ticks w.
Proof.
  intros Hd Henc file. rewrite save_result_cases. cbv zeta. rewrite Hd, Henc.
  eexists. split; [done|]. simpl. by rewrite insert_insert_eq.
Qed.

(** X30. When the record can be built and holds a value [json.dump] cannot
    encode, a set, [save_result] raises [TypeError] once the file is opened
    and partly written: the task is untouched, the file holds text that is
    no JSON document, whatever it held before, and loading it fails with
    [JSONDecodeError]. *)
Theorem save_result_unencodable (k : Task.t) (w : World) (dir : string)
    (d : pyval) :
  TaskResult.to_dict (Task.result k) = Ok d →
  json_encodable d = false →
  let file := os_path_join dir (Task.task_id k +:+ ".json") in
  ∃ e w',
    Task.save_result dir (k, w) = (Raise e, (k, w')) ∧
    exn_type e = TypeError ∧
    files w' = <[file := FText (json_dumps d)]> (files w) ∧
    ∃ e', Task.load_from_file file w' = (Raise e', w') ∧
          exn_type e' = JSONDecodeError.
Proof.
  intros Hd Henc file. rewrite save_result_cases. cbv zeta. rewrite Hd, Henc.
  eexists _, _. split; [done|]. split; [done|].
  split; [simpl; by rewrite insert_insert_eq|].
  unfold Task.load_from_file, mbind, M_bind, open_read, lift_res. simpl.
  rewrite lookup_insert_eq. simpl. eauto.
Qed.
End persistence.

(** ** More on discovery and construction *)

#[global] Instance str_le_antisym : AntiSymm eq str_le.
Proof. intros a b. apply String.leb_antisym. Qed.

Lemma elem_of_dir (c : TaskClass) (name : string) :
  name ∈ dir_ c ↔
  name ∈ instance_attrs ∨ name ∈ (cls_body c).*1 ∨ name ∈ Task_attrs.
Proof.
  unfold dir_. rewrite merge_sort_Permutation, elem_of_remove_dups.
  by rewrite !elem_of_app.
Qed.

(** The names discovery keeps. *)
Lemma elem_of_discover (c : TaskClass) (name : string) :
  name ∈ discover c ↔
  (name ∉ instance_attrs) ∧
  ∃ body, (list_to_map (reverse (cls_body c)) : gmap string member) !! name
            = Some (Method true body).
Proof.
  unfold discover. rewrite list_elem_of_filter, elem_of_dir.
  unfold is_step, getattr_. case_bool_decide as Hinst.
  { split; [by intros [? _]|by intros [? _]]. }
  destruct (list_to_map (reverse (cls_body c)) !! name) as [m|] eqn:Hm.
  - split.
    + intros [Hstep _]. split; [done|].
      destruct m as [[] body| |]; try done. eauto.
    + intros [_ [body [= ->]]]. split; [reflexivity|]. right. left.
      apply elem_of_list_to_map_2 in Hm. rewrite elem_of_reverse in Hm.
      apply list_elem_of_fmap. exists (name, Method true body). by split.
  - split; [|by intros [_ [? ?]]].
    intros [Hstep _]. by case_bool_decide.
Qed.

(** X9. The steps construction discovers are exactly the names that are not
    taken by an attribute of the instance and whose binding in the class
    body, the last one when a name is bound twice, is a method tagged by
    [@step]: methods without the tag, attributes that cannot be called,
    [MagicMock] members and the methods of [Task] itself are not steps.
    Each step is listed once. *)
Theorem discover_spec (c : TaskClass) (name : string) :
  NoDup (discover c) ∧
  (name ∈ discover c ↔
   (name ∉ instance_attrs) ∧
   ∃ body, (list_to_map (reverse (cls_body c)) : gmap string member) !! name
             = Some (Method true body)).
Proof.
  split; [apply discover_NoDup|apply elem_of_discover].
Qed.

(** X10. When the class body binds each name once and none of them is the
    name of an instance attribute, the discovered steps are the declared
    steps sorted by name: [sorted(declared)], and not the declared order
    unless that order is already sorted. *)
Theorem discover_is_sorted_declared (c : TaskClass) :
  NoDup (cls_body c).*1 →
  (∀ name, name ∈ (cls_body c).*1 → name ∉ instance_attrs) →
  discover c = merge_sort str_le (declared_steps c) ∧
  (discover c = declared_steps c ↔ StronglySorted str_le (declared_steps c)).
Proof.
  intros Hnodup Hfree.
  assert (discover c = merge_sort str_le (declared_steps c)) as Heq.
  { apply (StronglySorted_unique str_le).
    - apply discover_sorted.
    - apply StronglySorted_merge_sort; apply _.
    - rewrite merge_sort_Permutation.
      assert (NoDup (declared_steps c)) as Hnd.
      { unfold declared_steps. apply (sublist_NoDup _ _ Hnodup).
        apply fmap_sublist, sublist_filter. }
      apply NoDup_Permutation; [apply discover_NoDup|done|].
      intros name. rewrite elem_of_discover.
      unfold declared_steps. rewrite list_elem_of_fmap. split.
      + intros [_ [body Hm]].
        apply elem_of_list_to_map_2 in Hm. rewrite elem_of_reverse in Hm.
        exists (name, Method true body). split; [done|].
        by apply list_elem_of_filter.
      + intros ([name' m] & -> & Hin).
        apply list_elem_of_filter in Hin as [Htag Hin]. simpl in *.
        destruct m as [[] body| |]; try done.
        split; [apply Hfree, list_elem_of_fmap; by exists (name', Method true body)|].
        exists body. apply elem_of_list_to_map_1.
        * by rewrite fmap_reverse, reverse_Permutation.
        * by apply elem_of_reverse. }
  split; [done|]. split.
  - intros <-. apply discover_sorted.
  - intros Hsorted. rewrite Heq. symmetry.
    apply (StronglySorted_unique str_le); [done| |].
    + apply StronglySorted_merge_sort; apply _.
    + by rewrite merge_sort_Permutation.
Qed.

(** X11. A freshly built task is executable and pending, has no exit
    message, no start and no end time and no artifact, and holds one pending
    step result, with the empty message and the empty payload, for each
    discovered step and for nothing else.  Its exit code is already defined:
    1 without steps, 0 with some. *)
Theorem new_task_state (c : TaskClass) (tid created : string) :
  let task := Task.new c tid created in
  Task.is_executable task = true ∧
  Task.task_id task = tid ∧
  TaskResult.task_type (Task.result task) = PStr (cls_name c) ∧
  TaskResult.status (Task.result task) = PENDING ∧
  TaskResult.exit_message (Task.result task) = PNone ∧
  TaskResult.start_at (Task.result task) = PNone ∧
  TaskResult.end_at (Task.result task) = PNone ∧
  TaskResult.artifacts (Task.result task) = PDict ∅ ∧
  (∀ name,
     TaskResult.data (Task.result task) !! name =
     if decide (name ∈ Task.steps task) then Some StepResult.default
     else None) ∧
  TaskResult.exit_code (Task.result task)
    = if decide (Task.steps task = []) then 1%Z else 0%Z.
Proof.
  intros task. split_and!; try done.
  - intros name. case_decide as Hin; [by apply new_data|].
    destruct (TaskResult.data (Task.result task) !! name) as [sr|] eqn:Hsr;
      [|done].
    by apply new_data_inv in Hsr as [? _].
  - case_decide as Hnil.
    + unfold task, Task.new. simpl in Hnil. by rewrite Hnil.
    + destruct (Task.steps task) as [|first rest] eqn:Hsteps; [done|].
      apply (exit_code_0 _ first StepResult.default); [|done].
      apply new_data. change (discover c) with (Task.steps task).
      rewrite Hsteps. apply list_elem_of_here.
Qed.

(** ** More on the records *)

Lemma res_bind_Ok {A B} (m : Res A) (f : A → Res B) (b : B) :
  m ≫= f = Ok b → ∃ a, m = Ok a ∧ f a = Ok b.
Proof. destruct m as [a|e]; [|done]. eauto. Qed.

Section records.
Context `{Externals}.

(** X12. [StepResult] checks its status only when it is a string.  Keyword
    arguments whose status is any other value build a step result that
    holds that value as it is; such a step result cannot be turned back into
    a record, [to_dict] raises [AttributeError], and neither can a task
    result that holds it: its [to_dict] raises [AttributeError] too. *)
Theorem nonstring_status_is_kept (kw : gmap string pyval) (v : pyval) :
  dom kw ⊆ ({["message"; "status"; "data"]} : gset string) →
  kw !! "status" = Some v →
  (∀ s, v ≠ PStr s) →
  ∃ sr,
    StepResult.from_kwargs (PDict kw) = Ok sr ∧
    StepResult.status sr = StepResult.RawStatus v ∧
    (∃ e, StepResult.to_dict sr = Raise e ∧ exn_type e = AttributeError) ∧
    ∀ r name, TaskResult.data r !! name = Some sr →
              ∃ e, TaskResult.to_dict r = Raise e ∧
                   exn_type e = AttributeError.
Proof.
  intros Hkeys Hstatus Hnot.
  exists (StepResult.mk (from_option id (PStr "") (kw !! "message"))
            (StepResult.RawStatus v)
            (from_option id (PDict ∅) (kw !! "data"))).
  split_and!.
  - unfold StepResult.from_kwargs. rewrite bool_decide_eq_true_2 by done.
    rewrite Hstatus. unfold StepResult.init, StepResult.post_init. simpl.
    destruct v; try done. by destruct (Hnot s).
  - done.
  - simpl. eauto.
  - intros r name Hsr. unfold TaskResult.to_dict.
    destruct (dict_mapM StepResult.to_dict (TaskResult.data r))
      as [steps|e] eqn:Hsteps.
    + pose proof (dict_mapM_Ok_inv _ _ _ name Hsteps) as Hname.
      rewrite Hsr in Hname. by destruct Hname as (y & Hy & _).
    + exists e. split; [done|].
      apply dict_mapM_Raise_inv in Hsteps as (k & x & _ & Hx).
      unfold StepResult.to_dict in Hx.
      destruct (StepResult.status x); [done|]. by injection Hx as <-.
Qed.

(** X13. [load_from_file] reads eight keys of a record and no other: two
    records that agree on them give the same result, so that the exit code
    and the duration a file states are never trusted.  The key [artifacts]
    may be missing, the artifacts are then empty; a record without
    [task_type] raises [KeyError], and decoded JSON that is a list raises
    [TypeError]. *)
Theorem read_result_keys (d : gmap string pyval) :
  (∀ d' : gmap string pyval,
     (∀ key, key ∈ ["task_type"; "status"; "exit_message"; "created_at";
                    "start_at"; "end_at"; "data"; "artifacts"] →
             d' !! key = d !! key) →
     Task.read_result (PDict d') = Task.read_result (PDict d)) ∧
  (∀ r, d !! "artifacts" = None → Task.read_result (PDict d) = Ok r →
        TaskResult.artifacts r = PDict ∅) ∧
  (d !! "task_type" = None →
   ∃ e, Task.read_result (PDict d) = Raise e ∧ exn_type e = KeyError) ∧
  (∀ l, ∃ e, Task.read_result (PList l) = Raise e ∧ exn_type e = TypeError).
Proof.
  split_and!.
  - intros d' Hsame. unfold Task.read_result, getitem, dict_get.
    rewrite !Hsame; [done|..]; apply list_elem_of_In; simpl; tauto.
  - intros r Hnone Hread. unfold Task.read_result in Hread.
    repeat (apply res_bind_Ok in Hread as (? & ? & Hread)).
    injection Hread as <-. simpl.
    match goal with Hget : dict_get _ _ _ = Ok _ |- _ =>
      unfold dict_get in Hget; rewrite Hnone in Hget; by injection Hget as <-
    end.
  - intros Hnone. unfold Task.read_result, getitem. rewrite Hnone. simpl.
    eauto.
  - intros l. unfold Task.read_result. simpl. eauto.
Qed.
End records.

(** ** More on artifacts *)

Section more_artifacts.
Context `{Externals}.

(** X14. When the source is a file and the artifacts of the task are a
    mapping, [add_artifact] moves the file to
    [<artifact_path>/<identity>_<basename>], makes the directory, records
    the new path under the basename of the source, over an earlier entry
    of that name, and changes nothing else in the task. *)
Theorem add_artifact_moves_and_records (k : Task.t) (w : World)
    (path artifact_path : string) (c : file_data) (a : gmap string pyval) :
  files w !! path = Some c →
  TaskResult.artifacts (Task.result k) = PDict a →
  let name := os_path_basename path in
  let new_path := os_path_join artifact_path (Task.task_id k +:+ "_" +:+ name) in
  ∃ w',
    Task.add_artifact path artifact_path (k, w) =
    (Ok tt,
     (Task.upd_result
        (TaskResult.set_artifacts (PDict (<[name := PStr new_path]> a))) k,
      w')) ∧
    files w' = <[new_path := c]> (delete path (files w)) ∧
    dirs w' = {[artifact_path]} ∪ dirs w ∧
    log w' = log w ++ [LogRecord (Task.logger k) LInfo
                         ("Adding artifact " +:+ name)].
Proof.
  intros Hfile Hart name new_path.
  unfold Task.add_artifact, Task.on_view, Task.add_artifact_of, zoom,
    mbind, M_bind, view_world, zoom, view_setitem, logger_info, os_makedirs,
    os_rename, modify. simpl. rewrite Hfile. simpl. rewrite Hart. simpl.
  eauto.
Qed.

(** X15. The file is moved before the entry is recorded.  On a task whose
    artifacts are not a mapping, as a loaded record may have them,
    [add_artifact] raises [TypeError] once the file is gone from its
    source: the move is done and no entry records it. *)
Theorem add_artifact_moves_then_fails (k : Task.t) (w : World)
    (path artifact_path : string) (c : file_data) :
  files w !! path = Some c →
  (∀ a, TaskResult.artifacts (Task.result k) ≠ PDict a) →
  let new_path :=
    os_path_join artifact_path
      (Task.task_id k +:+ "_" +:+ os_path_basename path) in
  ∃ e w',
    Task.add_artifact path artifact_path (k, w) = (Raise e, (k, w')) ∧
    exn_type e = TypeError ∧
    files w' = <[new_path := c]> (delete path (files w)).
Proof.
  intros Hfile Hart new_path.
  unfold Task.add_artifact, Task.on_view, Task.add_artifact_of, zoom,
    mbind, M_bind, view_world, zoom, view_setitem, logger_info, os_makedirs,
    os_rename, modify. simpl. rewrite Hfile. simpl.
  destruct k as [? ? ? ? [? ? ? ? ? ? ? art] ?]. simpl in *.
  destruct art; simpl; try (by eexists _, _); by destruct (Hart m).
Qed.
End more_artifacts.

(** ** More on the manager *)

Section more_manager.
Context `{Externals}.

(** X16. While the executor has not been shut down, [add_task] returns.
    The thread of the manager builds a task of the class with a fresh
    identity [task-<uuid>], registers it under that identity, hands it to
    the executor after the tasks handed before, logs two records and returns
    the identity; the tasks registered under other identities are
    untouched. *)
Theorem add_task_registers_and_submits (c : TaskClass)
    (pool : TaskManager.Pool) (m : TaskManager.t) (w : World) :
  TaskManager.is_shutdown pool = false →
  let tid := "task-" +:+ uuid4 (ticks w) in
  let task := Task.new c tid (now_isoformat (S (ticks w))) in
  ∃ m' w',
    TaskManager.add_task c (pool, (m, w)) =
      (Ok tid,
       (TaskManager.mkPool (TaskManager.submitted pool ++ [tid]) false,
        (m', w'))) ∧
    TaskManager.tasks m' = <[tid := task]> (TaskManager.tasks m) ∧
    log_msg <$> log w' =
      (log_msg <$> log w) ++
      ["Adding task " +:+ cls_name c +:+ " with id " +:+ tid;
       "Starting task " +:+ tid].
Proof.
  intros Hopen tid task.
  unfold TaskManager.add_task, TaskManager._start_task, TaskManager.submit,
    TaskManager.on_manager, TaskManager.on_world, TaskManager.info, zoom,
    Task.init, fresh_uuid4, fresh_now, logger_info, mbind, M_bind, gets,
    modify. simpl. rewrite lookup_insert_eq. simpl. rewrite Hopen.
  eexists _, _. split; [done|]. split_and!; try done.
  simpl. by rewrite !fmap_app, <- app_assoc.
Qed.

(** X17. [shutdown] returns and logs its two records; the registry is
    untouched.  After it, [add_task] raises the [RuntimeError] of the
    executor, and it does so once the task is built and registered: the task
    stays in the registry, executable and never handed to a worker. *)
Theorem add_task_after_shutdown (c : TaskClass) (pool : TaskManager.Pool)
    (m : TaskManager.t) (w : World) :
  ∃ w1,
    TaskManager.shutdown (pool, (m, w)) =
      (Ok tt, (TaskManager.mkPool (TaskManager.submitted pool) true,
               (m, w1))) ∧
    log_msg <$> log w1 =
      (log_msg <$> log w) ++
      ["Shutting down task manager, waiting for tasks to finish";
       "All tasks finished, shutting down"] ∧
    let tid := "task-" +:+ uuid4 (ticks w1) in
    ∃ e m' w',
      TaskManager.add_task c
        (TaskManager.mkPool (TaskManager.submitted pool) true, (m, w1)) =
        (Raise e, (TaskManager.mkPool (TaskManager.submitted pool) true,
                   (m', w'))) ∧
      exn_type e = UserError "RuntimeError" ∧
      TaskManager.tasks m' !! tid
        = Some (Task.new c tid (now_isoformat (S (ticks w1)))).
Proof.
  eexists. split; [reflexivity|]. split.
  { simpl. by rewrite !fmap_app, <- app_assoc. }
  intros tid.
  unfold TaskManager.add_task, TaskManager._start_task, TaskManager.submit,
    TaskManager.on_manager, TaskManager.on_world, TaskManager.info, zoom,
    Task.init, fresh_uuid4, fresh_now, logger_info, mbind, M_bind, gets,
    modify. simpl. rewrite lookup_insert_eq. simpl.
  eexists _, _, _. split; [reflexivity|]. split; [done|].
  simpl. apply lookup_insert_eq.
Qed.

(** X18. [get_task_status] only reads: whatever it is asked and whatever it
    answers, the registry and the world are the ones it was given. *)
Theorem get_task_status_reads_only (task_id : string)
    (logs_dir : option string) (m : TaskManager.t) (w : World) :
  (TaskManager.get_task_status task_id logs_dir (m, w)).2 = (m, w).
Proof.
  unfold TaskManager.get_task_status, mbind, M_bind, gets, lift_res,
    TaskManager.on_world, zoom, os_path_exists, open_read. simpl.
  destruct (TaskManager.tasks m !! task_id) as [task|]; [|done].
  destruct logs_dir as [dir|]; simpl.
  - destruct (negb (String.eqb dir "")); simpl.
    + destruct (path_exists w _); simpl.
      * destruct (files w !! _) as [c|]; simpl.
        -- by destruct (Res_bind _ _ dict_items _).
        -- by case_bool_decide.
      * by destruct (Res_bind _ _ dict_items _).
    + by destruct (Res_bind _ _ dict_items _).
  - by destruct (Res_bind _ _ dict_items _).
Qed.

End more_manager.

(** ** Names of files and identities *)

Lemma append_cons (c : Ascii.ascii) (s t : string) :
  String c s +:+ t = String c (s +:+ t).
Proof. reflexivity. Qed.

Lemma append_assoc (a b c : string) : (a +:+ b) +:+ c = a +:+ b +:+ c.
Proof.
  induction a as [|x a IH]; [done|]. by rewrite !append_cons, IH.
Qed.

Lemma has_char_cons (c x : Ascii.ascii) (s : string) :
  has_char c (String x s) = Ascii.eqb c x || has_char c s.
Proof. reflexivity. Qed.

Lemma basename_cons (c : Ascii.ascii) (p : string) :
  os_path_basename (String c p) =
  if has_char slash p then os_path_basename p
  else if Ascii.eqb c slash then p else String c p.
Proof. reflexivity. Qed.

Lemma has_char_app (c : Ascii.ascii) (a b : string) :
  has_char c (a +:+ b) = has_char c a || has_char c b.
Proof.
  induction a as [|x a IH]; [done|].
  by rewrite append_cons, !has_char_cons, IH, orb_assoc.
Qed.

Lemma ends_with_slash_has_char (a : string) :
  ends_with_slash a = true → has_char slash a = true.
Proof.
  induction a as [|x a IH]; [done|]. destruct a as [|y a].
  - simpl. intros Hx. apply Ascii.eqb_eq in Hx as ->. done.
  - intros Hy. change (ends_with_slash (String x (String y a)))
      with (ends_with_slash (String y a)) in Hy.
    change (has_char slash (String x (String y a)))
      with (Ascii.eqb slash x || has_char slash (String y a)).
    rewrite (IH Hy). apply orb_true_r.
Qed.

Lemma ends_with_slash_snoc (a : string) : ends_with_slash (a +:+ "/") = true.
Proof.
  induction a as [|x a IH]; [done|]. rewrite append_cons.
  destruct a as [|y a]; [done|]. by rewrite append_cons in *.
Qed.

Lemma basename_no_slash (x : string) :
  has_char slash x = false → os_path_basename x = x.
Proof.
  destruct x as [|c x]; [done|]. rewrite has_char_cons, basename_cons.
  intros Hno. apply orb_false_iff in Hno as [Hc Hx]. rewrite Hx.
  rewrite Ascii.eqb_sym in Hc. by rewrite Hc.
Qed.

Lemma basename_after_slash (a x : string) :
  has_char slash x = false →
  a = "" ∨ ends_with_slash a = true →
  os_path_basename (a +:+ x) = x.
Proof.
  intros Hx. induction a as [|c a IH]; intros Ha.
  { by apply basename_no_slash. }
  destruct Ha as [?|Ha]; [done|]. rewrite append_cons.
  rewrite basename_cons.
  destruct a as [|y a].
  - change ("" +:+ x) with x. rewrite Hx.
    change (Ascii.eqb c slash = true) in Ha. by rewrite Ha.
  - rewrite has_char_app.
    rewrite (ends_with_slash_has_char (String y a)) by exact Ha.
    simpl. apply IH. by right.
Qed.

Lemma starts_with_slash_has_char (x : string) :
  has_char slash x = false → starts_with_slash x = false.
Proof.
  destruct x as [|c x]; [done|]. rewrite has_char_cons. intros Hno.
  apply orb_false_iff in Hno as [Hc _]. unfold starts_with_slash.
  by rewrite Ascii.eqb_sym.
Qed.

(** [os.path.basename(os.path.join(d, x))] is [x] when [x] has no slash. *)
Lemma basename_join (d x : string) :
  has_char slash x = false → os_path_basename (os_path_join d x) = x.
Proof.
  intros Hx. unfold os_path_join.
  rewrite (starts_with_slash_has_char x Hx).
  destruct (String.eqb d "") eqn:Hd.
  - apply String.eqb_eq in Hd as ->. simpl. by apply basename_no_slash.
  - simpl. destruct (ends_with_slash d) eqn:Hend.
    + apply basename_after_slash; auto.
    + rewrite <- append_assoc. apply basename_after_slash; [done|].
      right. apply ends_with_slash_snoc.
Qed.

Lemma length_app (a b : string) :
  String.length (a +:+ b) = String.length a + String.length b.
Proof. induction a as [|c a IH]; [done|]. rewrite append_cons. simpl. lia. Qed.

Lemma substring_all (b : string) : substring 0 (String.length b) b = b.
Proof. induction b as [|c b IH]; [done|]. simpl. by rewrite IH. Qed.

Lemma substring_app_r (a b : string) :
  substring (String.length a) (String.length b) (a +:+ b) = b.
Proof.
  induction a as [|c a IH]; [apply substring_all|by rewrite append_cons].
Qed.

Lemma substring_app_l (a b : string) :
  substring 0 (String.length a) (a +:+ b) = a.
Proof.
  induction a as [|c a IH]; [by destruct b|]. rewrite append_cons. simpl.
  by rewrite IH.
Qed.

(** [(s + suffix).removesuffix(suffix)] is [s]. *)
Lemma removesuffix_app (suffix s : string) :
  removesuffix suffix (s +:+ suffix) = s.
Proof.
  unfold removesuffix. rewrite length_app.
  replace (String.length s + String.length suffix - String.length suffix)
    with (String.length s) by lia.
  rewrite substring_app_r, substring_app_l, String.eqb_refl.
  rewrite andb_true_r. by rewrite (proj2 (Nat.leb_le _ _)) by lia.
Qed.

(** [(x + "." + rest).split(".")[0]] is [x] when [x] has no dot. *)
Lemma split_dot_head_app (x rest : string) :
  has_char dot x = false → split_dot_head (x +:+ String dot rest) = x.
Proof.
  induction x as [|c x IH].
  { intros _. change (split_dot_head (String dot rest) = "").
    unfold split_dot_head. by rewrite Ascii.eqb_refl. }
  rewrite append_cons, has_char_cons.
  intros Hno. apply orb_false_iff in Hno as [Hc Hx].
  change (split_dot_head (String c (x +:+ String dot rest)))
    with (if Ascii.eqb c dot then ""
          else String c (split_dot_head (x +:+ String dot rest))).
  rewrite Ascii.eqb_sym in Hc. by rewrite Hc, IH.
Qed.

(** ** More on the scan of the result directory *)

Section more_scan.
Context `{Externals}.

(** What [load_from_file] leaves alone, and the flag of the task it builds. *)
Lemma load_from_file_frame (path : string) (w : World) :
  files (Task.load_from_file path w).2 = files w ∧
  dirs (Task.load_from_file path w).2 = dirs w ∧
  log (Task.load_from_file path w).2 = log w ∧
  ∀ task, (Task.load_from_file path w).1 = Ok task →
          Task.is_executable task = false.
Proof.
  unfold Task.load_from_file, mbind, M_bind, open_read, lift_res. simpl.
  destruct (files w !! path) as [c|]; [|by case_bool_decide].
  destruct (json_load c) as [d|]; [|done]. simpl.
  destruct (Task.read_result d) as [r|]; simpl; [|done].
  split_and!; try done. by intros task [= <-].
Qed.

(** One turn of the loop of [load_from_disk], by the outcome of
    [load_from_file]. *)
Lemma load_entry_unfold (file : string) (m : TaskManager.t) (w : World) :
  let task_id := split_dot_head file in
  let w1 :=
    set_log (λ l, l ++ [LogRecord (TaskManager.logger m) LInfo
                          ("Loading task " +:+ task_id +:+ " from disk")]) w in
  TaskManager.load_entry file (m, w) =
  match Task.load_from_file (os_path_join (TaskManager.path_result m) file) w1
  with
  | (Ok task, w2) =>
      (Ok tt, (TaskManager.set_tasks (<[task_id := task]>) m, w2))
  | (Raise e, w2) =>
      if is_JSONDecodeError e
      then (Ok tt,
            (m, set_log (λ l, l ++ [LogRecord (TaskManager.logger m) LError
                   ("Error loading task " +:+ task_id +:+ " from disk")]) w2))
      else (Raise e, (m, w2))
  end.
Proof.
  intros task_id w1.
  unfold TaskManager.load_entry, try_except_else, mbind, M_bind,
    TaskManager.info, TaskManager.error, TaskManager.on_world, zoom,
    logger_info, logger_error, gets, modify. cbn [fst snd].
  fold task_id. fold w1.
  destruct (Task.load_from_file _ w1) as [[task|e] w2]; [done|].
  by destruct (is_JSONDecodeError e).
Qed.

(** What one turn of the scan leaves alone. *)
Lemma load_entry_frame (file : string) (m : TaskManager.t) (w : World) :
  let out := TaskManager.load_entry file (m, w) in
  files out.2.2 = files w ∧ dirs out.2.2 = dirs w ∧
  TaskManager.path_result out.2.1 = TaskManager.path_result m ∧
  TaskManager.path_artifact out.2.1 = TaskManager.path_artifact m ∧
  TaskManager.logger out.2.1 = TaskManager.logger m ∧
  (TaskManager.tasks out.2.1 = TaskManager.tasks m ∨
   ∃ task, out.1 = Ok tt ∧ Task.is_executable task = false ∧
           TaskManager.tasks out.2.1
             = <[split_dot_head file := task]> (TaskManager.tasks m)) ∧
  ∀ e, out.1 = Raise e → is_JSONDecodeError e = false.
Proof.
  intros out. subst out. rewrite load_entry_unfold. cbv zeta.
  match goal with |- context [Task.load_from_file ?p ?w1] =>
    pose proof (load_from_file_frame p w1) as (Hf & Hd & _ & Hexe);
    destruct (Task.load_from_file p w1) as [[task|e] w2] end;
    cbn [fst snd] in *.
  - split_and!; try done. right. exists task. split_and!; try done.
    by apply Hexe.
  - destruct (is_JSONDecodeError e) eqn:He; cbn [fst snd];
      split_and!; try done; try by left.
    by intros e' [= <-].
Qed.

Lemma load_entries_frame (entries : list string) (m : TaskManager.t)
    (w : World) :
  let out := TaskManager.load_entries entries (m, w) in
  files out.2.2 = files w ∧ dirs out.2.2 = dirs w ∧
  TaskManager.path_result out.2.1 = TaskManager.path_result m ∧
  TaskManager.path_artifact out.2.1 = TaskManager.path_artifact m ∧
  TaskManager.logger out.2.1 = TaskManager.logger m ∧
  (∀ tid, is_Some (TaskManager.tasks m !! tid) →
          is_Some (TaskManager.tasks out.2.1 !! tid)) ∧
  (∀ tid task, TaskManager.tasks out.2.1 !! tid = Some task →
               TaskManager.tasks m !! tid = Some task ∨
               Task.is_executable task = false) ∧
  ∀ e, out.1 = Raise e → is_JSONDecodeError e = false.
Proof.
  revert m w. induction entries as [|file rest IH]; intros m w out.
  { subst out. simpl. split_and!; try done. by left. }
  subst out. rewrite load_entries_cons.
  pose proof (load_entry_frame file m w) as Hturn. cbv zeta in Hturn.
  destruct (TaskManager.load_entry file (m, w)) as [[[]|e] [m1 w1]];
    cbn [fst snd] in *;
    destruct Hturn as (Hf & Hd & Hpr & Hpa & Hlg & Htasks & Hexn).
  - pose proof (IH m1 w1) as IH1. cbv zeta in IH1.
    destruct (TaskManager.load_entries rest (m1, w1)) as [r [m2 w2]];
      cbn [fst snd] in *.
    destruct IH1 as (Hf' & Hd' & Hpr' & Hpa' & Hlg' & Hkeep & Hnew & Hexn').
    split_and!; try congruence.
    + intros tid Hin. apply Hkeep.
      destruct Htasks as [->|(task & _ & _ & ->)]; [done|].
      destruct (decide (split_dot_head file = tid)) as [<-|Hne].
      * rewrite lookup_insert_eq. by eexists.
      * by rewrite lookup_insert_ne.
    + intros tid task Hin. destruct (Hnew tid task Hin) as [Hold|?];
        [|by right].
      destruct Htasks as [Hsame|(task' & _ & Hexe & Hins)].
      * left. by rewrite <- Hsame.
      * rewrite Hins in Hold.
        destruct (decide (split_dot_head file = tid)) as [<-|Hne].
        -- rewrite lookup_insert_eq in Hold. injection Hold as <-.
           by right.
        -- rewrite lookup_insert_ne in Hold by done. by left.
    + exact Hexn'.
  - split_and!; try done.
    + destruct Htasks as [->|(task & ? & _)]; done.
    + destruct Htasks as [->|(task & ? & _)]; [by left|done].
Qed.

(** X20. Whatever the result directory holds and however the scan ends,
    [load_from_disk] keeps the paths of the manager, keeps every identity the
    registry had, and registers only tasks that cannot be run.  The error it
    raises, when it raises one, is never [JSONDecodeError]. *)
Theorem load_from_disk_frame (m : TaskManager.t) (w : World) :
  let out := TaskManager.load_from_disk (m, w) in
  TaskManager.path_result out.2.1 = TaskManager.path_result m ∧
  TaskManager.path_artifact out.2.1 = TaskManager.path_artifact m ∧
  (∀ tid, is_Some (TaskManager.tasks m !! tid) →
          is_Some (TaskManager.tasks out.2.1 !! tid)) ∧
  (∀ tid task, TaskManager.tasks out.2.1 !! tid = Some task →
               TaskManager.tasks m !! tid = Some task ∨
               Task.is_executable task = false) ∧
  ∀ e, out.1 = Raise e → exn_type e ≠ JSONDecodeError.
Proof.
  intros out. subst out.
  unfold TaskManager.load_from_disk. rewrite bind_unfold. unfold gets.
  cbn [fst snd]. rewrite bind_unfold.
  unfold TaskManager.on_world, zoom, os_listdir. cbn [fst snd].
  case_bool_decide as Hdir; cbn [fst snd].
  - match goal with |- context [TaskManager.load_entries ?l _] =>
      pose proof (load_entries_frame l m w)
        as (Hf & Hd & Hpr & Hpa & _ & Hkeep & Hnew & Hexn) end.
    split_and!; try done.
    intros e He Hty. apply Hexn in He. unfold is_JSONDecodeError in He.
    by rewrite Hty in He.
  - split_and!; try done; [by left|]. by intros e [= <-].
Qed.

(** X21. One turn of the scan on an entry that holds a result record.  The
    task is registered under what precedes the first dot of the entry's
    name, while the identity the task itself carries is the name without a
    final [.json]: the two differ when the name has an earlier dot.  The
    task holds the result of the record, has no steps, cannot be run, and
    logs under a fresh name instead of its identity.  The manager logs one
    record in that turn. *)
Theorem load_entry_registers_record (file : string) (m : TaskManager.t)
    (w : World) (d : pyval) (r : TaskResult.t) :
  has_char slash file = false →
  files w !! os_path_join (TaskManager.path_result m) file = Some (FJson d) →
  Task.read_result d = Ok r →
  ∃ task m' w',
    TaskManager.load_entry file (m, w) = (Ok tt, (m', w')) ∧
    TaskManager.tasks m'
      = <[split_dot_head file := task]> (TaskManager.tasks m) ∧
    Task.task_id task = removesuffix ".json" file ∧
    Task.result task = r ∧
    Task.is_executable task = false ∧
    Task.steps task = [] ∧
    Task.logger task = "task-" +:+ uuid4 (ticks w) ∧
    log w' = log w ++ [LogRecord (TaskManager.logger m) LInfo
                         ("Loading task " +:+ split_dot_head file
                          +:+ " from disk")].
Proof.
  intros Hslash Hfile Hread. rewrite load_entry_unfold. cbv zeta.
  erewrite load_from_file_record; [|exact Hfile|exact Hread].
  eexists _, _, _. split; [done|]. split_and!; try done.
  cbn [Task.task_id]. by rewrite basename_join.
Qed.

(** X22. A result saved in the result directory of a manager comes back
    under the identity of its task.  When the record of the result holds
    only values of the JSON data model and the identity has neither a dot
    nor a slash, as [task-<uuid>] has none, [save_result] returns and the
    turn of the scan on [<identity>.json] registers under that identity a
    task that carries it, holds the saved result and cannot be run. *)
Theorem saved_task_is_scanned_back (k : Task.t) (m : TaskManager.t)
    (w : World) (d : pyval) :
  TaskResult.to_dict (Task.result k) = Ok d →
  is_json d = true →
  has_char dot (Task.task_id k) = false →
  has_char slash (Task.task_id k) = false →
  ∃ w1 m' w' task,
    Task.save_result (TaskManager.path_result m) (k, w) = (Ok tt, (k, w1)) ∧
    TaskManager.load_entry (Task.task_id k +:+ ".json") (m, w1)
      = (Ok tt, (m', w')) ∧
    TaskManager.tasks m' !! Task.task_id k = Some task ∧
    Task.task_id task = Task.task_id k ∧
    Task.result task = Task.result k ∧
    Task.is_executable task = false.
Proof.
  intros Hd Hjson Hdot Hslash.
  destruct (is_json_image d Hjson) as [Himage Henc].
  rewrite save_result_cases. cbv zeta. rewrite Hd, Henc, Himage.
  assert (has_char slash (Task.task_id k +:+ ".json") = false) as Hname.
  { by rewrite has_char_app, Hslash. }
  eexists _, _, _, _. split; [reflexivity|].
  rewrite load_entry_unfold. cbv zeta.
  erewrite load_from_file_record;
    [|cbn [files set_files]; apply lookup_insert_eq
     |by apply to_dict_read_result].
  split; [reflexivity|]. cbn [TaskManager.tasks TaskManager.set_tasks].
  change ".json" with (String dot "json") at 1.
  rewrite split_dot_head_app by done.
  split; [apply lookup_insert_eq|]. split_and!; try done.
  cbn [Task.task_id]. by rewrite basename_join, removesuffix_app.
Qed.

Lemma load_entry_readable (file : string) (m : TaskManager.t) (w : World)
    (c : file_data) :
  files w !! os_path_join (TaskManager.path_result m) file = Some c →
  (∀ d, c = FJson d → ∃ r, Task.read_result d = Ok r) →
  ∃ m' w',
    TaskManager.load_entry file (m, w) = (Ok tt, (m', w')) ∧
    files w' = files w ∧
    TaskManager.path_result m' = TaskManager.path_result m ∧
    ∀ tid, is_Some (TaskManager.tasks m' !! tid) ↔
           is_Some (TaskManager.tasks m !! tid) ∨
           (split_dot_head file = tid ∧ ∃ d, c = FJson d).
Proof.
  intros Hfile Hrecord. rewrite load_entry_unfold. cbv zeta.
  destruct c as [text|d].
  - unfold Task.load_from_file, mbind, M_bind, open_read, lift_res.
    cbn [files set_log]. rewrite Hfile. cbn.
    eexists _, _. split; [reflexivity|]. split_and!; try done.
    intros tid. split; [by left|]. by intros [?|[_ [? ?]]].
  - destruct (Hrecord d eq_refl) as [r Hr].
    erewrite load_from_file_record; [|exact Hfile|exact Hr].
    eexists _, _. split; [reflexivity|]. split_and!; try done.
    intros tid. cbn [TaskManager.tasks TaskManager.set_tasks].
    destruct (decide (split_dot_head file = tid)) as [<-|Hne].
    + rewrite lookup_insert_eq. split; [|by eexists]. intros _. right. eauto.
    + rewrite lookup_insert_ne by done. split; [by left|].
      by intros [?|[? _]].
Qed.

Lemma load_entries_readable (entries : list string) (m : TaskManager.t)
    (w : World) :
  (∀ file, file ∈ entries →
     ∃ c, files w !! os_path_join (TaskManager.path_result m) file = Some c ∧
          ∀ d, c = FJson d → ∃ r, Task.read_result d = Ok r) →
  ∃ m' w',
    TaskManager.load_entries entries (m, w) = (Ok tt, (m', w')) ∧
    ∀ tid, is_Some (TaskManager.tasks m' !! tid) ↔
           is_Some (TaskManager.tasks m !! tid) ∨
           ∃ file d,
             file ∈ entries ∧ split_dot_head file = tid ∧
             files w !! os_path_join (TaskManager.path_result m) file
               = Some (FJson d).
Proof.
  revert m w. induction entries as [|file rest IH]; intros m w Hgood.
  { exists m, w. split; [done|]. intros tid. split; [by left|].
    intros [?|(file & d & Hin & _)]; [done|]. by apply elem_of_nil in Hin. }
  destruct (Hgood file) as (c & Hfile & Hrecord); [apply list_elem_of_here|].
  destruct (load_entry_readable file m w c Hfile Hrecord)
    as (m1 & w1 & Hturn & Hfiles & Hdir & Hkeys).
  destruct (IH m1 w1) as (m2 & w2 & Hrest & Hkeys').
  { intros file' Hin. rewrite Hfiles, Hdir. apply Hgood.
    by apply list_elem_of_further. }
  exists m2, w2. rewrite load_entries_cons, Hturn. split; [exact Hrest|].
  intros tid. rewrite Hkeys', Hkeys, Hfiles, Hdir. split.
  - intros [[?|[Hkey [d ->]]]|(file' & d & Hin & Hkey & Hfile')].
    + by left.
    + right. exists file, d. split; [apply list_elem_of_here|done].
    + right. exists file', d. split; [by apply list_elem_of_further|done].
  - intros [?|(file' & d & Hin & Hkey & Hfile')]; [by left; left|].
    apply elem_of_cons in Hin as [->|Hin].
    + left. right. split; [done|]. exists d. congruence.
    + right. by exists file', d.
Qed.

(** X23. When every entry of the result directory is a file that holds
    either a readable result record or text that is not JSON,
    [load_from_disk] returns, and the identities registered afterwards are the
    ones registered before and the stems, up to the first dot, of the entries
    that hold a record. *)
Theorem scan_of_readable_directory (m : TaskManager.t) (w : World)
    (entries : list string) :
  (os_listdir (TaskManager.path_result m) w).1 = Ok entries →
  (∀ file, file ∈ entries →
     ∃ c, files w !! os_path_join (TaskManager.path_result m) file = Some c ∧
          ∀ d, c = FJson d → ∃ r, Task.read_result d = Ok r) →
  ∃ m' w',
    TaskManager.load_from_disk (m, w) = (Ok tt, (m', w')) ∧
    ∀ tid, is_Some (TaskManager.tasks m' !! tid) ↔
           is_Some (TaskManager.tasks m !! tid) ∨
           ∃ file d,
             file ∈ entries ∧ split_dot_head file = tid ∧
             files w !! os_path_join (TaskManager.path_result m) file
               = Some (FJson d).
Proof.
  intros Hlist Hgood.
  destruct (load_entries_readable entries m w Hgood)
    as (m' & w' & Hscan & Hkeys).
  exists m', w'. split; [|exact Hkeys].
  unfold TaskManager.load_from_disk. rewrite bind_unfold. unfold gets.
  cbn [fst snd]. rewrite bind_unfold.
  unfold TaskManager.on_world, zoom. cbn [fst snd].
  unfold os_listdir in *. case_bool_decide; [|done].
  cbn [fst snd] in *. injection Hlist as ->. exact Hscan.
Qed.
End more_scan.

(** ** The listing of the tasks *)

Lemma insert_reverse_Permutation {K A} (lt : K → K → bool) (x : K * A)
    (l : list (K * A)) :
  insert_reverse lt x l ≡ₚ x :: l.
Proof.
  induction l as [|y l IH]; [done|]. simpl.
  destruct (lt x.1 y.1); [|done]. rewrite IH. apply Permutation_swap.
Qed.

Lemma sorted_reverse_Permutation {K A} (lt : K → K → bool)
    (l : list (K * A)) :
  sorted_reverse lt l ≡ₚ l.
Proof.
  induction l as [|x l IH]; [done|]. unfold sorted_reverse. simpl.
  rewrite insert_reverse_Permutation. by rewrite <- IH at 2.
Qed.

Section reverse_order.
Context {K A : Type} (lt : K → K → bool).
Hypothesis lt_asym : ∀ a b, lt a b = true → lt b a = false.
Hypothesis lt_negtrans :
  ∀ a b c, lt a b = false → lt b c = false → lt a c = false.

Lemma insert_reverse_sorted (x : K * A) (l : list (K * A)) :
  StronglySorted (λ a b, lt a.1 b.1 = false) l →
  StronglySorted (λ a b, lt a.1 b.1 = false) (insert_reverse lt x l).
Proof.
  induction 1 as [|y l Hsorted IH Hall]; simpl.
  { repeat constructor. }
  destruct (lt x.1 y.1) eqn:Hxy.
  - constructor; [exact IH|].
    rewrite insert_reverse_Permutation. constructor; [|exact Hall].
    by apply lt_asym.
  - constructor; [by constructor|]. constructor; [exact Hxy|].
    eapply Forall_impl; [exact Hall|]. intros z Hyz. cbv beta in *.
    by eapply lt_negtrans.
Qed.

Lemma sorted_reverse_sorted (l : list (K * A)) :
  StronglySorted (λ a b, lt a.1 b.1 = false) (sorted_reverse lt l).
Proof.
  induction l as [|x l IH]; [constructor|].
  by apply insert_reverse_sorted.
Qed.
End reverse_order.

Section listing.
Context `{Externals} `{!DatetimeOrder}.

Lemma created_key_summary (task : Task.t) :
  TaskManager.created_key (TaskManager.summary task)
  = fromisoformat (TaskResult.created_at (Task.result task)).
Proof.
  unfold TaskManager.created_key, TaskManager.summary, getitem.
  rewrite ?list_to_map_cons.
  repeat (rewrite lookup_insert_ne by done). by rewrite lookup_insert_eq.
Qed.

Lemma elem_of_selected (ty : option string) (m : TaskManager.t)
    (task : Task.t) :
  task ∈ filter (λ task, TaskManager.selected ty task = true)
                (map_to_list (TaskManager.tasks m)).*2
  ↔ TaskManager.selected ty task = true ∧
    ∃ tid, TaskManager.tasks m !! tid = Some task.
Proof.
  rewrite list_elem_of_filter, list_elem_of_fmap. split.
  - intros [Hsel ([tid task'] & -> & Hin)]. split; [done|].
    exists tid. by apply elem_of_map_to_list in Hin.
  - intros [Hsel [tid Hin]]. split; [done|].
    exists (tid, task). split; [done|]. by apply elem_of_map_to_list.
Qed.

Lemma keyed_entries (entries : list pyval)
    (keyed : list (datetime * pyval)) :
  Forall2 (λ x y, (k ← TaskManager.created_key x; mret (k, x)) = Ok y)
          entries keyed →
  keyed.*2 = entries ∧
  Forall (λ kx, TaskManager.created_key kx.2 = Ok kx.1) keyed.
Proof.
  induction 1 as [|x [k x'] xs keyed' Hx _ [IH1 IH2]]; [by split|].
  destruct (TaskManager.created_key x) as [k'|] eqn:Hk; [|done].
  simpl in Hx. injection Hx as <- <-. split.
  - rewrite fmap_cons. by f_equal.
  - by constructor.
Qed.

Lemma comparable_keys_spec (keys : list datetime) :
  TaskManager.comparable_keys keys = true ↔
  (∀ k, k ∈ keys → dt_aware k = true) ∨
  (∀ k, k ∈ keys → dt_aware k = false).
Proof.
  unfold TaskManager.comparable_keys. rewrite orb_true_iff, !forallb_forall.
  split; (intros [Hall|Hall]; [left|right]); intros k Hk.
  - by apply Hall, list_elem_of_In.
  - apply negb_true_iff. by apply Hall, list_elem_of_In.
  - by apply Hall, list_elem_of_In.
  - apply negb_true_iff. by apply Hall, list_elem_of_In.
Qed.

(** The keys [list_tasks] computes are the creation times of the tasks it
    selects. *)
Lemma elem_of_keys (ty : option string) (m : TaskManager.t)
    (keyed : list (datetime * pyval)) (k : datetime) :
  list_mapM (λ x, k ← TaskManager.created_key x; mret (k, x))
    (TaskManager.summary <$>
       filter (λ task, TaskManager.selected ty task = true)
              (map_to_list (TaskManager.tasks m)).*2) = Ok keyed →
  k ∈ keyed.*1 ↔
  ∃ tid task,
    TaskManager.tasks m !! tid = Some task ∧
    TaskManager.selected ty task = true ∧
    fromisoformat (TaskResult.created_at (Task.result task)) = Ok k.
Proof.
  intros Hkeys. apply list_mapM_Ok_inv in Hkeys.
  pose proof (keyed_entries _ _ Hkeys) as [Hvalues Hkeyed].
  rewrite Forall_forall in Hkeyed. split.
  - intros Hin. apply list_elem_of_fmap in Hin as ([k' x] & -> & Hin).
    pose proof (Hkeyed _ Hin) as Hk. simpl in *.
    assert (x ∈ keyed.*2) as Hx
      by (apply list_elem_of_fmap; by exists (k', x)).
    rewrite Hvalues in Hx.
    apply list_elem_of_fmap in Hx as (task & -> & Hsel).
    apply elem_of_selected in Hsel as [Hsel [tid Hreg]].
    rewrite created_key_summary in Hk. eauto.
  - intros (tid & task & Hreg & Hsel & Hk).
    assert (TaskManager.summary task ∈ keyed.*2) as Hin.
    { rewrite Hvalues. apply list_elem_of_fmap. exists task. split; [done|].
      apply elem_of_selected. eauto. }
    apply list_elem_of_fmap in Hin as ([k' x] & Hx & Hin). simpl in Hx.
    pose proof (Hkeyed _ Hin) as Hk'. simpl in Hk'. subst x.
    rewrite created_key_summary, Hk in Hk'. injection Hk' as <-.
    apply list_elem_of_fmap. by exists (k, TaskManager.summary task).
Qed.

(** X24. [list_tasks] changes nothing, and it returns exactly when the
    creation time of every task it selects can be read as a datetime and
    these datetimes can be compared, being all aware of their time zone or
    all naive.  One selected task whose [created_at] is not an ISO string,
    as a loaded record may have it, makes the whole listing raise, and so
    do, with [TypeError], two selected tasks of which one states its offset
    and the other does not; the times of the tasks the filter leaves out
    are never read. *)
Theorem list_tasks_reads_selected_times (ty : option string)
    (m : TaskManager.t) (w : World) :
  (TaskManager.list_tasks ty (m, w)).2 = (m, w) ∧
  ((∃ l, (TaskManager.list_tasks ty (m, w)).1 = Ok l) ↔
   (∀ tid task,
      TaskManager.tasks m !! tid = Some task →
      TaskManager.selected ty task = true →
      ∃ k, fromisoformat (TaskResult.created_at (Task.result task)) = Ok k) ∧
   ∃ aware : bool,
     ∀ tid task k,
       TaskManager.tasks m !! tid = Some task →
       TaskManager.selected ty task = true →
       fromisoformat (TaskResult.created_at (Task.result task)) = Ok k →
       dt_aware k = aware).
Proof.
  unfold TaskManager.list_tasks. rewrite bind_unfold. unfold gets.
  cbn [fst snd]. rewrite bind_unfold. unfold lift_res.
  destruct (list_mapM _ _) as [keyed|e] eqn:Hkeys; cbn [fst snd].
  - pose proof (elem_of_keys ty m keyed) as Helem.
    specialize (λ k, Helem k Hkeys).
    assert (∀ tid task,
              TaskManager.tasks m !! tid = Some task →
              TaskManager.selected ty task = true →
              ∃ k, fromisoformat (TaskResult.created_at (Task.result task))
                   = Ok k) as Hread.
    { intros tid task Hreg Hsel.
      apply list_mapM_Ok_inv in Hkeys.
      assert (TaskManager.summary task ∈
                TaskManager.summary <$>
                  filter (λ task, TaskManager.selected ty task = true)
                         (map_to_list (TaskManager.tasks m)).*2) as Hin.
      { apply list_elem_of_fmap. exists task. split; [done|].
        apply elem_of_selected. eauto. }
      apply list_elem_of_lookup in Hin as [i Hi].
      destruct (Forall2_lookup_l _ _ _ _ _ Hkeys Hi) as ([k x] & _ & Hk).
      rewrite created_key_summary in Hk.
      destruct (fromisoformat _) as [k'|]; [by exists k'|done]. }
    destruct (TaskManager.comparable_keys keyed.*1) eqn:Hcmp; cbn [fst snd].
    + split; [done|]. split; [|by eexists]. intros _. split; [exact Hread|].
      apply comparable_keys_spec in Hcmp as [Hall|Hall];
        [exists true|exists false]; intros tid task k Hreg Hsel Hk;
        apply Hall, Helem; eauto.
    + split; [done|]. split; [by intros [l ?]|].
      intros [_ [aware Haware]].
      assert (TaskManager.comparable_keys keyed.*1 = true) as Hyes; [|congruence].
      apply comparable_keys_spec.
      destruct aware; [left|right]; intros k Hk;
        apply Helem in Hk as (tid & task & Hreg & Hsel & Hk); eauto.
  - split; [done|]. split; [by intros [l ?]|]. intros [Hall _].
    apply list_mapM_Raise_inv in Hkeys as (x & Hin & Hx).
    apply list_elem_of_fmap in Hin as (task & -> & Hin).
    apply elem_of_selected in Hin as [Hsel [tid Hreg]].
    destruct (Hall tid task Hreg Hsel) as [k Hk].
    rewrite created_key_summary, Hk in Hx. done.
Qed.

(** X25. With datetimes ordered as they are, when [list_tasks] returns, its
    entries are the summaries of the registered tasks the filter selects,
    each once per registration, and no entry comes before one that was
    created later: the newest task is first. *)
Theorem list_tasks_selects_and_sorts (ty : option string)
    (m : TaskManager.t) (w : World) (l : list pyval) :
  (∀ a b, dt_lt a b = true → dt_lt b a = false) →
  (∀ a b c, dt_lt a b = false → dt_lt b c = false → dt_lt a c = false) →
  (TaskManager.list_tasks ty (m, w)).1 = Ok l →
  l ≡ₚ TaskManager.summary <$>
         filter (λ task, TaskManager.selected ty task = true)
                (map_to_list (TaskManager.tasks m)).*2 ∧
  StronglySorted
    (λ x y, ∀ kx ky, TaskManager.created_key x = Ok kx →
                     TaskManager.created_key y = Ok ky →
                     dt_lt kx ky = false) l.
Proof.
  intros Hasym Htrans.
  unfold TaskManager.list_tasks. rewrite bind_unfold. unfold gets.
  cbn [fst snd]. rewrite bind_unfold. unfold lift_res.
  destruct (list_mapM _ _) as [keyed|e] eqn:Hkeys; cbn [fst snd]; [|done].
  destruct (TaskManager.comparable_keys keyed.*1); cbn [fst snd]; [|done].
  intros [= <-]. apply list_mapM_Ok_inv in Hkeys.
  apply keyed_entries in Hkeys as [Hvalues Hkeyed].
  split.
  { rewrite <- Hvalues. apply fmap_Permutation, sorted_reverse_Permutation. }
  pose proof (sorted_reverse_sorted dt_lt Hasym Htrans keyed) as Hsorted.
  assert (Forall (λ kx, TaskManager.created_key kx.2 = Ok kx.1)
            (sorted_reverse dt_lt keyed)) as Hkeyed'.
  { by rewrite sorted_reverse_Permutation. }
  induction Hsorted as [|[k x] rest Hsorted IH Hall]; [constructor|].
  apply Forall_cons in Hkeyed' as [Hx Hrest]. simpl in *.
  constructor; [by apply IH|].
  apply Forall_fmap. eapply Forall_impl.
  { apply Forall_and. split; [exact Hall|exact Hrest]. }
  intros [k' y] [Hlt Hy] kx ky Hkx Hky. simpl in *.
  rewrite Hx in Hkx. rewrite Hy in Hky. by injection Hkx as <-; injection Hky as <-.
Qed.
End listing.

(** ** The set-up of the loggers *)

Section logging.
Context `{Externals}.

(** What [get_logger] leaves of a logger that has a handler: everything,
    and in the world one more directory. *)
Lemma get_logger_configured (name path : string) (lvl : Z)
    (lgs : gmap string Logging.logger) (w : World) (lg : Logging.logger) :
  lgs !! name = Some lg →
  Logging.handlers lg ≠ [] →
  Logging.get_logger name lvl path (lgs, w)
  = (Ok name, (lgs, set_dirs (λ ds, {[path]} ∪ ds) w)).
Proof.
  intros Hlg Hhandlers.
  unfold Logging.get_logger, Logging.getLogger, Logging.on_world, zoom,
    os_makedirs, modify, mbind, M_bind. cbn [fst snd]. rewrite Hlg.
  by destruct (Logging.handlers lg).
Qed.

(** X26. A logger is configured once.  After a call of [get_logger] for a
    name, whether it returned or failed to open the log file, a later call
    for that name returns the logger as it is: the level and the directory
    of the later call configure nothing, although its directory is still
    made. *)
Theorem get_logger_configures_once (name path path' : string) (lvl lvl' : Z)
    (s : Logging.St) :
  let s1 := (Logging.get_logger name lvl path s).2 in
  Logging.get_logger name lvl' path' s1
  = (Ok name, (s1.1, set_dirs (λ ds, {[path']} ∪ ds) s1.2)).
Proof.
  intros s1.
  assert (∃ lg, s1.1 !! name = Some lg ∧ Logging.handlers lg ≠ [])
    as (lg & Hlg & Hhandlers).
  { subst s1. destruct s as [lgs w].
    unfold Logging.get_logger, Logging.getLogger, Logging.on_world, zoom,
      Logging.update, Logging.open_append, os_makedirs, modify, mbind,
      M_bind, mret, M_ret. cbn [fst snd].
    destruct (lgs !! name) as [lg|] eqn:Hlg; cbn [fst snd].
    - destruct (Logging.handlers lg) as [|h hs] eqn:Hh; cbn [fst snd].
      + case_bool_decide; cbn [fst snd]; eexists;
          (split; [rewrite !lookup_alter_eq, Hlg; reflexivity|]);
          simpl; by rewrite Hh.
      + exists lg. split; [done|]. by rewrite Hh.
    - cbn [Logging.handlers fst snd].
      case_bool_decide; cbn [fst snd]; eexists;
        (split; [rewrite !lookup_alter_eq, lookup_insert_eq; reflexivity|]);
        done. }
  destruct s1 as [lgs1 w1]. by eapply get_logger_configured.
Qed.

(** X27. The first call of [get_logger] for a name sets the logger to DEBUG
    whatever level it is given: the level goes to the console handler, and
    the file handler, at DEBUG, is made for [<path>/<name>.log].  That file
    is there afterwards with what it held, the directory is made, and no
    other logger and no other file is touched. *)
Theorem get_logger_first_call (name path : string) (lvl : Z)
    (lgs : gmap string Logging.logger) (w : World) :
  let file := os_path_join path (name +:+ ".log") in
  (∀ lg, lgs !! name = Some lg → Logging.handlers lg = []) →
  file ≠ path →
  file ∉ dirs w →
  ∃ lgs' w',
    Logging.get_logger name lvl path (lgs, w) = (Ok name, (lgs', w')) ∧
    lgs' !! name =
      Some (Logging.mkLogger Logging.DEBUG
              [Logging.StreamHandler Logging.LOG_FORMATTER_CONSOLE lvl;
               Logging.FileHandler file Logging.LOG_FORMATTER_FILE
                 Logging.DEBUG]) ∧
    (∀ other, other ≠ name → lgs' !! other = lgs !! other) ∧
    dirs w' = {[path]} ∪ dirs w ∧
    files w' !! file = Some (from_option id (FText "") (files w !! file)) ∧
    ∀ p, p ≠ file → files w' !! p = files w !! p.
Proof.
  intros file Hfresh Hne Hnodir.
  unfold Logging.get_logger, Logging.getLogger, Logging.on_world, zoom,
    Logging.update, Logging.open_append, os_makedirs, modify, mbind,
    M_bind, mret, M_ret. cbn [fst snd]. fold file.
  assert (bool_decide (file ∈ dirs (set_dirs (λ ds, {[path]} ∪ ds) w))
          = false) as Hdir.
  { apply bool_decide_eq_false. simpl. intros Hin.
    apply elem_of_union in Hin as [Hin|Hin]; [|done].
    by apply elem_of_singleton in Hin. }
  destruct (lgs !! name) as [lg|] eqn:Hlg; cbn [fst snd].
  - pose proof (Hfresh lg eq_refl) as Hnone.
    eexists _, _. split.
    { rewrite Hnone. cbn [fst snd]. rewrite Hdir. cbn [fst snd].
      reflexivity. }
    split_and!.
    + rewrite !lookup_alter_eq, Hlg. destruct lg as [l hs].
      simpl in Hnone. by subst hs.
    + intros other Hother. by rewrite !lookup_alter_ne.
    + done.
    + simpl. destruct (files w !! file) as [c|] eqn:Hfile; simpl.
      * done.
      * apply lookup_insert_eq.
    + intros p Hp. simpl. destruct (files w !! file); [done|].
      by apply lookup_insert_ne.
  - eexists _, _. split.
    { cbn [Logging.handlers fst snd]. rewrite Hdir. cbn [fst snd].
      reflexivity. }
    split_and!.
    + by rewrite !lookup_alter_eq, lookup_insert_eq.
    + intros other Hother. rewrite !lookup_alter_ne by done.
      by apply lookup_insert_ne.
    + done.
    + simpl. destruct (files w !! file) as [c|] eqn:Hfile; simpl.
      * done.
      * apply lookup_insert_eq.
    + intros p Hp. simpl. destruct (files w !! file); [done|].
      by apply lookup_insert_ne.
Qed.
End logging.

(** ** Running a task again *)

Section rerun.
Context `{Externals}.

End rerun.

(** ** A step hidden by an attribute *)

Section hidden_steps.
Context `{Externals}.

End hidden_steps.

(** ** Creation times that cannot be compared *)

Section mixed_times.
Context `{Externals} `{!DatetimeOrder}.

(** X32. When the creation times of the selected tasks can all be read and
    two of them cannot be compared, one stating its offset from UTC and the
    other not, [list_tasks] raises [TypeError] and changes nothing. *)
Theorem list_tasks_mixed_times (ty : option string) (m : TaskManager.t)
    (w : World) (ida idb : string) (ta tb : Task.t) (ka kb : datetime) :
  (∀ tid task,
     TaskManager.tasks m !! tid = Some task →
     TaskManager.selected ty task = true →
     ∃ k, fromisoformat (TaskResult.created_at (Task.result task)) = Ok k) →
  TaskManager.tasks m !! ida = Some ta →
  TaskManager.selected ty ta = true →
  fromisoformat (TaskResult.created_at (Task.result ta)) = Ok ka →
  dt_aware ka = true →
  TaskManager.tasks m !! idb = Some tb →
  TaskManager.selected ty tb = true →
  fromisoformat (TaskResult.created_at (Task.result tb)) = Ok kb →
  dt_aware kb = false →
  ∃ e, TaskManager.list_tasks ty (m, w) = (Raise e, (m, w)) ∧
       exn_type e = TypeError.
Proof.
  intros Hread Hrega Hsela Hka Hawa Hregb Hselb Hkb Hawb.
  unfold TaskManager.list_tasks. rewrite bind_unfold. unfold gets.
  cbn [fst snd]. rewrite bind_unfold. unfold lift_res.
  destruct (list_mapM _ _) as [keyed|e] eqn:Hkeys; cbn [fst snd].
  - pose proof (elem_of_keys ty m keyed) as Helem.
    specialize (λ k, Helem k Hkeys).
    destruct (TaskManager.comparable_keys keyed.*1) eqn:Hcmp;
      [|by eexists].
    assert (ka ∈ keyed.*1) as Hina by (apply Helem; eauto).
    assert (kb ∈ keyed.*1) as Hinb by (apply Helem; eauto).
    apply comparable_keys_spec in Hcmp as [Hall|Hall].
    + specialize (Hall kb Hinb). congruence.
    + specialize (Hall ka Hina). congruence.
  - apply list_mapM_Raise_inv in Hkeys as (x & Hin & Hx).
    apply list_elem_of_fmap in Hin as (task & -> & Hin).
    apply elem_of_selected in Hin as [Hsel [tid Hreg]].
    destruct (Hread tid task Hreg Hsel) as [k Hk].
    rewrite created_key_summary, Hk in Hx. done.
Qed.
End mixed_times.

(** ** The further properties on concrete inputs *)

Lemma save_result_failure_empties_the_file_witness :
  ∃ e w',
    TaskResult.to_dict (H := sample_externals) (Task.result unsaveable_task)
      = Raise e ∧
    Task.save_result (H := sample_externals) "results/"
      (unsaveable_task, empty_world) = (Raise e, (unsaveable_task, w')) ∧
    files w' !! "results/task-9.json" = Some (FText "").
Proof.
  set (e := Exn AttributeError "object has no attribute 'value'").
  assert (TaskResult.to_dict (H := sample_externals)
            (Task.result unsaveable_task) = Raise e) as Hfail
    by (vm_compute; reflexivity).
  destruct (save_result_failure_empties_the_file (H := sample_externals)
              unsaveable_task empty_world "results/" e Hfail)
    as (w' & Hsave & Hfile & _).
  exists e, w'. split; [exact Hfail|]. split; [exact Hsave|exact Hfile].
Defined.

Lemma save_result_writes_one_file_witness :
  let task := Task.new Pipeline "task-1" "2021-01-01T00:00:00" in
  ∃ d w',
    TaskResult.to_dict (H := sample_externals) (Task.result task) = Ok d ∧
    Task.save_result (H := sample_externals) "results/" (task, empty_world)
      = (Ok tt, (task, w')) ∧
    files w' = {["results/task-1.json" := FJson d]}.
Proof.
  intros task.
  set (d := match TaskResult.to_dict (H := sample_externals)
                    (Task.result task) with
            | Ok d => d
            | Raise _ => PNone
            end).
  assert (TaskResult.to_dict (H := sample_externals) (Task.result task)
          = Ok d) as Hd by (vm_compute; reflexivity).
  destruct (save_result_writes_one_file (H := sample_externals) task
              empty_world "results/" d Hd ltac:(vm_compute; reflexivity))
    as (w' & Hsave & Hfiles & _).
  exists d, w'. split; [exact Hd|]. split; [exact Hsave|].
  rewrite Hfiles. vm_compute. reflexivity.
Defined.

(** The result of a task of [Collecting] once its step has returned a set. *)
Lemma save_result_unencodable_witness :
  let task :=
    Task.upd_result
      (TaskResult.set_data
         {["collect" := StepResult.mk (PStr "") (StepResult.Status SUCCESS)
                          (PSet [PInt 1; PInt 2])]})
      (Task.new Collecting "task-1" "2021-01-01T00:00:00") in
  ∃ e w',
    Task.save_result (H := sample_externals) "results/" (task, empty_world)
      = (Raise e, (task, w')) ∧
    exn_type e = TypeError ∧
    files w' !! "results/task-1.json" = Some (FText "{").
Proof.
  intros task.
  set (d := match TaskResult.to_dict (H := sample_externals)
                    (Task.result task) with
            | Ok d => d
            | Raise _ => PNone
            end).
  assert (TaskResult.to_dict (H := sample_externals) (Task.result task)
          = Ok d) as Hd by (vm_compute; reflexivity).
  destruct (save_result_unencodable (H := sample_externals) task
              empty_world "results/" d Hd ltac:(vm_compute; reflexivity))
    as (e & w' & Hsave & Htype & Hfiles & _).
  exists e, w'. split; [exact Hsave|]. split; [exact Htype|].
  rewrite Hfiles. vm_compute. reflexivity.
Defined.

Lemma discover_is_sorted_declared_witness :
  NoDup (cls_body Pipeline).*1 ∧
  discover Pipeline = merge_sort str_le (declared_steps Pipeline).
Proof.
  assert (NoDup (cls_body Pipeline).*1) as Hnodup.
  { apply (bool_decide_unpack _). vm_compute. exact I. }
  split; [exact Hnodup|].
  refine (proj1 (discover_is_sorted_declared Pipeline Hnodup _)).
  apply (proj1 (Forall_forall _ _)).
  apply (bool_decide_unpack _). vm_compute. exact I.
Defined.

Lemma nonstring_status_is_kept_witness :
  ∃ sr,
    StepResult.from_kwargs (H := sample_externals)
      (PDict {["status" := PInt 42]}) = Ok sr ∧
    StepResult.status sr = StepResult.RawStatus (PInt 42).
Proof.
  destruct (nonstring_status_is_kept (H := sample_externals)
              {["status" := PInt 42]} (PInt 42))
    as (sr & Hbuilt & Hstatus & _).
  - apply (bool_decide_unpack _). vm_compute. exact I.
  - reflexivity.
  - intros s. discriminate.
  - exists sr. split; [exact Hbuilt|exact Hstatus].
Defined.

Lemma add_artifact_moves_and_records_witness :
  let task := Task.new Pipeline "task-1" "2021-01-01T00:00:00" in
  ∃ w',
    Task.add_artifact (H := sample_externals) "out/report.txt" "artifacts/"
      (task, report_world) =
    (Ok tt,
     (Task.upd_result
        (TaskResult.set_artifacts
           (PDict {["report.txt" := PStr "artifacts/task-1_report.txt"]}))
        task, w')) ∧
    files w' = {["artifacts/task-1_report.txt" := FText "3 rows"]}.
Proof.
  intros task.
  destruct (add_artifact_moves_and_records (H := sample_externals) task
              report_world "out/report.txt" "artifacts/" (FText "3 rows") ∅
              eq_refl eq_refl) as (w' & Hrun & Hfiles & _).
  exists w'. split.
  - rewrite Hrun. by rewrite insert_empty.
  - rewrite Hfiles. vm_compute. reflexivity.
Defined.

Lemma add_artifact_moves_then_fails_witness :
  ∃ e w',
    Task.add_artifact (H := sample_externals) "out/report.txt" "artifacts/"
      (listed_artifacts_task, report_world)
      = (Raise e, (listed_artifacts_task, w')) ∧
    exn_type e = TypeError ∧
    files w' !! "out/report.txt" = None.
Proof.
  destruct (add_artifact_moves_then_fails (H := sample_externals)
              listed_artifacts_task report_world "out/report.txt"
              "artifacts/" (FText "3 rows") eq_refl)
    as (e & w' & Hrun & Htype & Hfiles).
  - intros a. discriminate.
  - exists e, w'. split; [exact Hrun|]. split; [exact Htype|].
    rewrite Hfiles. vm_compute. reflexivity.
Defined.

Lemma add_task_registers_and_submits_witness :
  ∃ m' w',
    TaskManager.add_task (H := sample_externals) Pipeline
      (TaskManager.new_pool,
       (TaskManager.init "artifacts/" "results/", empty_world))
    = (Ok "task-00000000-0000-4000-8000-000000000000",
       (TaskManager.mkPool ["task-00000000-0000-4000-8000-000000000000"]
          false, (m', w'))).
Proof.
  destruct (add_task_registers_and_submits (H := sample_externals) Pipeline
              TaskManager.new_pool
              (TaskManager.init "artifacts/" "results/") empty_world eq_refl)
    as (m' & w' & Hadd & _).
  exists m', w'. exact Hadd.
Defined.


(** The record [task-1.v2.json] is registered under [task-1] and carries the
    identity [task-1.v2]. *)
Lemma load_entry_registers_record_witness :
  ∃ task m' w',
    TaskManager.load_entry (H := sample_externals) "task-1.v2.json"
      (TaskManager.init "artifacts/" "results/", dotted_world)
      = (Ok tt, (m', w')) ∧
    TaskManager.tasks m' = {["task-1" := task]} ∧
    Task.task_id task = "task-1.v2".
Proof.
  set (r := match Task.read_result (H := sample_externals)
                    (record_of "SUCCESS" ∅) with
            | Ok r => r
            | Raise _ => Task.result (Task.new Task_class "" "")
            end).
  assert (Task.read_result (H := sample_externals) (record_of "SUCCESS" ∅)
          = Ok r) as Hr by (vm_compute; reflexivity).
  destruct (load_entry_registers_record (H := sample_externals)
              "task-1.v2.json" (TaskManager.init "artifacts/" "results/")
              dotted_world (record_of "SUCCESS" ∅) r eq_refl eq_refl Hr)
    as (task & m' & w' & Hturn & Htasks & Hid & _).
  exists task, m', w'. split; [exact Hturn|]. split.
  - rewrite Htasks. apply insert_empty.
  - rewrite Hid. vm_compute. reflexivity.
Defined.

Lemma saved_task_is_scanned_back_witness :
  let task := Task.new Pipeline "task-1" "2021-01-01T00:00:00" in
  let m := TaskManager.init "artifacts/" "results/" in
  ∃ w1 m' w' loaded,
    Task.save_result (H := sample_externals) "results/" (task, empty_world)
      = (Ok tt, (task, w1)) ∧
    TaskManager.load_entry (H := sample_externals) "task-1.json" (m, w1)
      = (Ok tt, (m', w')) ∧
    TaskManager.tasks m' !! "task-1" = Some loaded ∧
    Task.result loaded = Task.result task.
Proof.
  intros task m.
  set (d := match TaskResult.to_dict (H := sample_externals)
                    (Task.result task) with
            | Ok d => d
            | Raise _ => PNone
            end).
  assert (TaskResult.to_dict (H := sample_externals) (Task.result task)
          = Ok d) as Hd by (vm_compute; reflexivity).
  destruct (saved_task_is_scanned_back (H := sample_externals) task m
              empty_world d Hd ltac:(vm_compute; reflexivity) eq_refl
              eq_refl)
    as (w1 & m' & w' & loaded & Hsave & Hturn & Hreg & _ & Hres & _).
  exists w1, m', w', loaded.
  split; [exact Hsave|]. split; [exact Hturn|].
  split; [exact Hreg|exact Hres].
Defined.

Lemma scan_of_readable_directory_witness :
  ∃ m' w',
    TaskManager.load_from_disk (H := sample_externals)
      (TaskManager.init "artifacts/" "results/", garbled_world)
      = (Ok tt, (m', w')) ∧
    is_Some (TaskManager.tasks m' !! "b") ∧
    ¬ is_Some (TaskManager.tasks m' !! "a").
Proof.
  set (r := match Task.read_result (H := sample_externals)
                    (record_of "SUCCESS" ∅) with
            | Ok r => r
            | Raise _ => Task.result (Task.new Task_class "" "")
            end).
  assert (Task.read_result (H := sample_externals) (record_of "SUCCESS" ∅)
          = Ok r) as Hr by (vm_compute; reflexivity).
  destruct (scan_of_readable_directory (H := sample_externals)
              (TaskManager.init "artifacts/" "results/") garbled_world
              ["a.json"; "b.json"])
    as (m' & w' & Hscan & Hkeys).
  - vm_compute. reflexivity.
  - intros file Hin. apply list_elem_of_In in Hin.
    destruct Hin as [<-|[<-|[]]].
    + exists (FText "not json"). split; [reflexivity|]. intros d. discriminate.
    + exists (FJson (record_of "SUCCESS" ∅)). split; [reflexivity|].
      intros d [= <-]. exists r. exact Hr.
  - exists m', w'. split; [exact Hscan|]. split.
    + apply Hkeys. right. exists "b.json", (record_of "SUCCESS" ∅).
      split; [apply list_elem_of_In; simpl; tauto|]. split; reflexivity.
    + intros Hin. apply Hkeys in Hin as [[? Hin]|(file & d & Hin & Hkey & Hf)].
      * discriminate Hin.
      * apply list_elem_of_In in Hin. destruct Hin as [<-|[<-|[]]].
        -- discriminate Hf.
        -- discriminate Hkey.
Defined.



Lemma loaded_task_is_not_executable_witness :
  ∃ k w',
    Task.load_from_file (H := sample_externals) "results/b.json" broken_world
      = (Ok k, w') ∧
    Task.execute (H := sample_externals) (k, w') =
    (Raise (Exn ValueError "Task is not executable"), (k, w')).
Proof.
  set (loaded := Task.load_from_file (H := sample_externals) "results/b.json"
                   broken_world).
  assert (loaded = (Ok (match loaded.1 with
                        | Ok k => k
                        | Raise _ => Task.new Task_class "" ""
                        end), loaded.2)) as Hload
    by (vm_compute; reflexivity).
  eexists _, _. split; [exact Hload|].
  exact (loaded_task_is_not_executable (H := sample_externals) broken_world
           loaded.2 loaded.2 "results/b.json" _ Hload).
Defined.


(** The listing of two tasks: the one created last comes first. *)
Lemma list_tasks_selects_and_sorts_witness :
  ∃ l,
    (@TaskManager.list_tasks sample_externals sample_order None
       (two_task_manager, empty_world)).1 = Ok l ∧
    (λ x, getitem (H := sample_externals) x "task_id") <$> l
      = [Ok (PStr "task-2"); Ok (PStr "task-1")] ∧
    StronglySorted
      (λ x y, ∀ kx ky,
         TaskManager.created_key (H := sample_externals) x = Ok kx →
         TaskManager.created_key (H := sample_externals) y = Ok ky →
         dt_lt (DatetimeOrder := sample_order) kx ky = false) l.
Proof.
  set (listing := (@TaskManager.list_tasks sample_externals sample_order None
                     (two_task_manager, empty_world)).1).
  set (l := match listing with Ok l => l | Raise _ => [] end).
  assert (listing = Ok l) as Hl by (vm_compute; reflexivity).
  exists l. split; [exact Hl|]. split; [vm_compute; reflexivity|].
  refine (proj2 (@list_tasks_selects_and_sorts sample_externals sample_order
                   None two_task_manager empty_world l _ _ Hl)).
  - intros a b Hab. apply negb_false_iff. apply negb_true_iff in Hab.
    destruct (str_le_total a b) as [Hle|Hle]; [exact Hle|].
    unfold str_le in Hle. congruence.
  - intros a b c Hab Hbc. apply negb_false_iff.
    apply negb_false_iff in Hab, Hbc.
    exact (str_le_trans c b a Hbc Hab).
Defined.

(** The logger of a task, set up under [logs/tasks]. *)
Lemma get_logger_first_call_witness :
  ∃ lgs' w',
    Logging.get_task_logger (H := sample_externals) "task-1" "logs/tasks"
      (∅, empty_world) = (Ok "task-1", (lgs', w')) ∧
    files w' !! "logs/tasks/task-1.log" = Some (FText "").
Proof.
  destruct (get_logger_first_call (H := sample_externals) "task-1"
              "logs/tasks" Logging.INFO ∅ empty_world)
    as (lgs' & w' & Hcall & _ & _ & _ & Hfile & _).
  - intros lg Hlg. by rewrite lookup_empty in Hlg.
  - intros Heq. vm_compute in Heq. discriminate Heq.
  - apply not_elem_of_empty.
  - exists lgs', w'. split; [exact Hcall|exact Hfile].
Defined.



(** The listing of two tasks of which one states its offset. *)
Lemma list_tasks_mixed_times_witness :
  ∃ e,
    @TaskManager.list_tasks sample_externals sample_order None
      (mixed_manager, empty_world) = (Raise e, (mixed_manager, empty_world)) ∧
    exn_type e = TypeError.
Proof.
  refine (@list_tasks_mixed_times sample_externals sample_order None
            mixed_manager empty_world "task-2" "task-1"
            (Task.new Pipeline "task-2" "2021-01-02T00:02:00+00:00")
            (Task.new Checked "task-1" "2021-01-01T00:00:00")
            "2021-01-02T00:02:00+00:00" "2021-01-01T00:00:00"
            _ _ _ _ _ _ _ _ _); try (vm_compute; reflexivity).
  intros tid task Hreg _.
  assert (∃ s, TaskResult.created_at (Task.result task) = PStr s) as [s ->].
  { unfold mixed_manager in Hreg. simpl in Hreg.
    destruct (decide (tid = "task-1")) as [->|Hne1].
    - rewrite lookup_insert_eq in Hreg. injection Hreg as <-. by eexists.
    - rewrite lookup_insert_ne in Hreg by done.
      destruct (decide (tid = "task-2")) as [->|Hne2].
      + rewrite lookup_singleton_eq in Hreg. injection Hreg as <-.
        by eexists.
      + by rewrite lookup_singleton_ne in Hreg. }
  by exists s.
Defined.
